(** * Password Alert content script: the keystroke monitor

    A shallow embedding of [src/chrome/content_script.js] (namespace
    [passwordcatcher]) and the properties of its keystroke state machine:
    the rolling buffer of typed characters, the candidate checks sent to
    the background page, the timing resets, the OTP tracker and the
    domain whitelist.

    Conventions of the embedding.
    - A JavaScript string that receives typed characters is the list of
      its UTF-16 code units ([jsString]); page strings (URLs, HTML,
      domains) are [string].
    - A [Date] is its time value in milliseconds; a field that may hold
      [undefined] or an invalid date, either of which makes a
      subtraction yield NaN and every comparison false, is an [option].
    - [chrome.runtime.sendMessage] and the banner injection are recorded
      as a list of [Effect]s, in program order.
    - The asynchronous callback of a [checkPassword] request is an input
      of its own ([checkCharsResponse_]).
    - [typedChars_] and [passwordLengths_] are declared without a value
      in the source; both are read only while [isRunning_] holds, and
      [start_] assigns both before it sets [isRunning_], so they are
      modelled at their assigned types, initially empty. *)

From Stdlib Require Import String Ascii ZArith List Bool Lia.
Import ListNotations.
Local Open Scope Z_scope.

(** ** JavaScript strings and the library calls the script uses *)

Definition jsString := list Z.

(** [String.fromCharCode(c)]: one code unit, [ToUint16 c]. *)
Definition fromCharCode (c : Z) : jsString := [c mod 65536].

(** [s.slice(-1 * n)] and [s.substr(-1 * n)] for a non-negative integer
    [n]: the last [n] code units, all of [s] when [n] exceeds its
    length; [-1 * 0] is [-0], a start index of 0, the whole string. *)
Definition lastChars (n : nat) (s : jsString) : jsString :=
  if Nat.eqb n 0 then s else skipn (List.length s - n) s.

Definition slice_neg := lastChars.
Definition substr_neg := lastChars.

(** Code units of an ASCII literal, for examples. *)
Fixpoint codes (s : string) : jsString :=
  match s with
  | EmptyString => []
  | String a r => Z.of_N (N_of_ascii a) :: codes r
  end.

(** [goog.string.startsWith(str, prefix)], Closure Library:
    [str.lastIndexOf(prefix, 0) == 0]. *)
Definition startsWith (str pre : string) : bool := String.prefix pre str.

(** [goog.string.endsWith(str, suffix)], Closure Library:
    [var l = str.length - suffix.length;
     return l >= 0 && str.indexOf(suffix, l) == l;] *)
Definition endsWith (str suffix : string) : bool :=
  let l := Z.of_nat (String.length str) - Z.of_nat (String.length suffix) in
  (0 <=? l) &&
  match String.index (Z.to_nat l) suffix str with
  | Some m => Nat.eqb m (Z.to_nat l)
  | None => false
  end.

(** [html.indexOf(snippet) >= 0]. *)
Definition occursIn (snippet html : string) : bool :=
  match String.index 0 snippet html with
  | Some _ => true
  | None => false
  end.

(** ** Constants *)

Definition SECONDS_TO_CLEAR_ : Z := 10.
Definition ENTER_ASCII_CODE_ : Z := 13.
Definition SECONDS_TO_CLEAR_OTP_ : Z := 60.
Definition GAIA_URL_ : string := "https://accounts.google.com/".

(** ** Page configuration

    The values fixed before [completePageInitialization_] runs: the
    managed policy (or the consumer defaults) and what the script reads
    from the document. [urlDomain] is
    [goog.uri.utils.getDomain(passwordcatcher.url_) || ''],
    [referrer] is [document.referrer.toString()] and [allHtml] is
    [document.documentElement.innerHTML]. *)
Record Page := {
  url_ : string;
  urlDomain : string;
  referrer : string;
  allHtml : string;
  sso_url_ : option string;
  corp_html_ : list string;
  whitelist_top_domains_ : list string;
  otp_length_ : Z;
  isEnterpriseUse_ : bool
}.

(** The consumer defaults of the source, for a page at [url]. *)
Definition consumerPage (url domain : string) : Page := {|
  url_ := url;
  urlDomain := domain;
  referrer := "";
  allHtml := "";
  sso_url_ := None;
  corp_html_ := [ "One account. All of Google.";
                  "Sign in with your Google Account";
                  "<title>Sign in - Google Accounts";
                  "//ssl.gstatic.com/accounts/ui/logo_2x.png" ]%string;
  whitelist_top_domains_ := [ "accounts.google.com"%string ];
  otp_length_ := 6;
  isEnterpriseUse_ := false
|}.

(** ** Mutable state of the script *)

Record State := {
  isRunning_ : bool;
  typedChars_ : jsString;
  typedTime_ : option Z;
  lastKeypressTimeStamp_ : option Z;
  passwordLengths_ : list bool;
  otpMode_ : bool;
  otpTime_ : option Z;
  otpCount_ : Z
}.

(** The state when the script is loaded. *)
Definition initialState : State := {|
  isRunning_ := false;
  typedChars_ := [];
  typedTime_ := None;
  lastKeypressTimeStamp_ := None;
  passwordLengths_ := [];
  otpMode_ := false;
  otpTime_ := None;
  otpCount_ := 0
|}.

Definition set_isRunning_ (v : bool) (s : State) : State :=
  {| isRunning_ := v; typedChars_ := typedChars_ s;
     typedTime_ := typedTime_ s;
     lastKeypressTimeStamp_ := lastKeypressTimeStamp_ s;
     passwordLengths_ := passwordLengths_ s; otpMode_ := otpMode_ s;
     otpTime_ := otpTime_ s; otpCount_ := otpCount_ s |}.

Definition set_typedChars_ (v : jsString) (s : State) : State :=
  {| isRunning_ := isRunning_ s; typedChars_ := v;
     typedTime_ := typedTime_ s;
     lastKeypressTimeStamp_ := lastKeypressTimeStamp_ s;
     passwordLengths_ := passwordLengths_ s; otpMode_ := otpMode_ s;
     otpTime_ := otpTime_ s; otpCount_ := otpCount_ s |}.

Definition set_typedTime_ (v : option Z) (s : State) : State :=
  {| isRunning_ := isRunning_ s; typedChars_ := typedChars_ s;
     typedTime_ := v;
     lastKeypressTimeStamp_ := lastKeypressTimeStamp_ s;
     passwordLengths_ := passwordLengths_ s; otpMode_ := otpMode_ s;
     otpTime_ := otpTime_ s; otpCount_ := otpCount_ s |}.

Definition set_lastKeypressTimeStamp_ (v : option Z) (s : State) : State :=
  {| isRunning_ := isRunning_ s; typedChars_ := typedChars_ s;
     typedTime_ := typedTime_ s;
     lastKeypressTimeStamp_ := v;
     passwordLengths_ := passwordLengths_ s; otpMode_ := otpMode_ s;
     otpTime_ := otpTime_ s; otpCount_ := otpCount_ s |}.

Definition set_passwordLengths_ (v : list bool) (s : State) : State :=
  {| isRunning_ := isRunning_ s; typedChars_ := typedChars_ s;
     typedTime_ := typedTime_ s;
     lastKeypressTimeStamp_ := lastKeypressTimeStamp_ s;
     passwordLengths_ := v; otpMode_ := otpMode_ s;
     otpTime_ := otpTime_ s; otpCount_ := otpCount_ s |}.

Definition set_otpMode_ (v : bool) (s : State) : State :=
  {| isRunning_ := isRunning_ s; typedChars_ := typedChars_ s;
     typedTime_ := typedTime_ s;
     lastKeypressTimeStamp_ := lastKeypressTimeStamp_ s;
     passwordLengths_ := passwordLengths_ s; otpMode_ := v;
     otpTime_ := otpTime_ s; otpCount_ := otpCount_ s |}.

Definition set_otpTime_ (v : option Z) (s : State) : State :=
  {| isRunning_ := isRunning_ s; typedChars_ := typedChars_ s;
     typedTime_ := typedTime_ s;
     lastKeypressTimeStamp_ := lastKeypressTimeStamp_ s;
     passwordLengths_ := passwordLengths_ s; otpMode_ := otpMode_ s;
     otpTime_ := v; otpCount_ := otpCount_ s |}.

Definition set_otpCount_ (v : Z) (s : State) : State :=
  {| isRunning_ := isRunning_ s; typedChars_ := typedChars_ s;
     typedTime_ := typedTime_ s;
     lastKeypressTimeStamp_ := lastKeypressTimeStamp_ s;
     passwordLengths_ := passwordLengths_ s; otpMode_ := otpMode_ s;
     otpTime_ := otpTime_ s; otpCount_ := v |}.

(** ** Effects and the monad of the script *)

Inductive Banner := PasswordWarning | PhishingWarning.

Inductive Effect :=
| SendClearOtpMode
| SendOtpAlert (url referer : string) (looksLikeGoogle : bool)
| SendCheckPassword (password : jsString) (url referer : string)
| InjectWarningBanner (b : Banner).

(** A computation reads and writes the [State] and appends to the log of
    effects. *)
Definition M (A : Type) : Type := State -> A * State * list Effect.

Definition ret {A} (a : A) : M A := fun s => (a, s, []).

Definition bind {A B} (m : M A) (f : A -> M B) : M B :=
  fun s =>
    let '(a, s1, o1) := m s in
    let '(b, s2, o2) := f a s1 in
    (b, s2, o1 ++ o2).

Definition get : M State := fun s => (s, s, []).
Definition modify (f : State -> State) : M unit := fun s => (tt, f s, []).
Definition emit (e : Effect) : M unit := fun s => (tt, s, [e]).

Declare Scope js_scope.
Delimit Scope js_scope with js.
Notation "x <- m ;; k" := (bind m (fun x => k))
  (at level 61, m at next level, right associativity) : js_scope.
Notation "m ;; k" := (bind m (fun _ => k))
  (at level 61, right associativity) : js_scope.
Local Open Scope js_scope.

Definition when (b : bool) (m : M unit) : M unit := if b then m else ret tt.

(** [for (...) body]: the body run on each index in order. *)
Fixpoint forEach {A} (l : list A) (body : A -> M unit) : M unit :=
  match l with
  | [] => ret tt
  | x :: r => body x ;; forEach r body
  end.

(** State and effects of running a computation. *)
Definition exec {A} (m : M A) (s : State) : State * list Effect :=
  let '(_, s', o) := m s in (s', o).

(** [now - since > seconds * 1000]; false when [since] is not a valid
    date (the difference is NaN). *)
Definition elapsedMoreThan (seconds now : Z) (since : option Z) : bool :=
  match since with
  | Some t => seconds * 1000 <? now - t
  | None => false
  end.

(** [x <= last]; false when [last] is undefined. *)
Definition notAfter (x : Z) (last : option Z) : bool :=
  match last with
  | Some t => x <=? t
  | None => false
  end.

(** ** Inputs *)

(** A keypress event as the handler reads it: [evt.charCode],
    [evt.timeStamp] (a finite number, here in whole milliseconds), and
    whether [evt.view] is non-null. *)
Record Event := {
  charCode : Z;
  timeStamp : Z;
  view : bool
}.

(** The parsed message of the background page: [state.passwordLengths]
    (a missing or [null] entry is falsy, here [false]),
    [state.otpMode] and [new Date(state.otpTime)]. *)
Record StartMsg := {
  passwordLengths : list bool;
  otpMode : bool;
  otpTime : option Z
}.

(** The inputs of one call of the keypress handler: the event and the
    values of its two [new Date()]. *)
Record Key := {
  keyEvent : Event;
  keyOtpNow : Z;
  keyNow : Z
}.

(** A genuine keypress of the character [c] at time [t]. *)
Definition typedAt (c t : Z) : Key :=
  {| keyEvent := {| charCode := c; timeStamp := t; view := true |};
     keyOtpNow := t;
     keyNow := t |}.

(** A digit typed inside the OTP window of a tracker armed at
    [armedAt]. *)
Definition digitKey (armedAt : option Z) (k : Key) : Prop :=
  0x30 <= charCode (keyEvent k) <= 0x39 /\
  elapsedMoreThan SECONDS_TO_CLEAR_OTP_ (keyOtpNow k) armedAt = false.

(** The watched lengths an array of flags stands for: the positive
    offsets that hold [true], in increasing order. *)
Definition watchedLengths (pl : list bool) : list nat :=
  filter (fun i => nth i pl false) (seq 1 (List.length pl - 1)).

(** The largest watched length, 0 when there is none. *)
Definition maxLength (pl : list bool) : nat :=
  fold_right Nat.max 0%nat (watchedLengths pl).

(** The buffer after the handler has appended the character [c] at
    time [now]: the clearing after a pause, the append and the trim of
    [handleKeypress_], as one expression. *)
Definition typedAfter (pl : list bool) (typed : jsString)
    (typedTime : option Z) (c now : Z) : jsString :=
  let kept := if elapsedMoreThan SECONDS_TO_CLEAR_ now typedTime
              then [] else typed in
  let grown := kept ++ fromCharCode c in
  if Nat.ltb (List.length pl) (List.length grown)
  then slice_neg (List.length pl) grown
  else grown.

(** The bound the handler keeps: while the monitor runs, the array of
    flags is not empty and the buffer is no longer than the array. *)
Definition bufferBounded (s : State) : Prop :=
  isRunning_ s = true ->
  passwordLengths_ s <> [] /\
  (List.length (typedChars_ s) <= List.length (passwordLengths_ s))%nat.

Section Script.

Variable page : Page.

(** ** The functions of the script *)

(** [passwordcatcher.stop_] *)
Definition stop_ : M unit :=
  modify (set_isRunning_ false).

(** The test of [start_] for a safe URL:
    [(sso_url_ && startsWith(url_, sso_url_)) ||
     startsWith(url_, GAIA_URL_)]. *)
Definition isSafeUrl : bool :=
  match sso_url_ page with
  | Some sso => negb (String.eqb sso "") && startsWith (url_ page) sso
  | None => false
  end
  || startsWith (url_ page) GAIA_URL_.

(** [passwordcatcher.start_] *)
Definition start_ (msg : StartMsg) : M unit :=
  modify (set_passwordLengths_ (passwordLengths msg)) ;;
  st <- get ;;
  if Nat.eqb (List.length (passwordLengths_ st)) 0 then
    stop_
  else
    when (otpMode msg)
      (modify (set_otpMode_ true) ;;
       modify (set_otpTime_ (otpTime msg))) ;;
    if isSafeUrl then
      stop_
    else
      modify (set_typedChars_ []) ;;
      modify (set_isRunning_ true).

(** The listener of [chrome.runtime.onMessage] installed by
    [completePageInitialization_]. *)
Definition onMessage (msg : StartMsg) : M unit :=
  stop_ ;; start_ msg.

(** [passwordcatcher.clearOtpMode_] *)
Definition clearOtpMode_ : M unit :=
  modify (set_otpMode_ false) ;;
  emit SendClearOtpMode.

(** [passwordcatcher.looksLikeGooglePage_] *)
Definition looksLikeGooglePage_ : bool :=
  existsb (fun snippet => occursIn snippet (allHtml page)) (corp_html_ page).

(** [passwordcatcher.otpAlert_] *)
Definition otpAlert_ : M unit :=
  emit (SendOtpAlert (url_ page) (referrer page) looksLikeGooglePage_).

(** [passwordcatcher.checkChars_]: the request. *)
Definition checkChars_ (typed : jsString) : M unit :=
  emit (SendCheckPassword typed (url_ page) (referrer page)).

(** [passwordcatcher.checkChars_]: the callback, run when the background
    page answers; [now] is its [new Date()]. *)
Definition checkCharsResponse_ (response : bool) (now : Z) : M unit :=
  when response
    (modify (set_otpCount_ 0) ;;
     modify (set_otpMode_ true) ;;
     modify (set_otpTime_ (Some now)) ;;
     when (negb (isEnterpriseUse_ page))
       (emit (InjectWarningBanner PasswordWarning))).

(** [passwordcatcher.whitelistUrl_] *)
Definition whitelistUrl_ : bool :=
  existsb (fun suffix => endsWith (urlDomain page) suffix)
          (whitelist_top_domains_ page).

(** The block of [handleKeypress_] guarded by [if (otpMode_)];
    [otpNow] is the [new Date()] it reads. *)
Definition otpBlock (evt : Event) (otpNow : Z) : M unit :=
  st <- get ;;
  (if elapsedMoreThan SECONDS_TO_CLEAR_OTP_ otpNow (otpTime_ st) then
     clearOtpMode_
   else if (0x30 <=? charCode evt) && (charCode evt <=? 0x39) then
     modify (set_otpCount_ (otpCount_ st + 1))
   else if (0x20 <? charCode evt) || (0 <? otpCount_ st) then
     clearOtpMode_
   else ret tt) ;;
  st <- get ;;
  when (otp_length_ page <=? otpCount_ st)
    (otpAlert_ ;; clearOtpMode_).

(** The loop at the end of [handleKeypress_]. *)
Definition checkLoop : M unit :=
  st <- get ;;
  forEach (seq 1 (List.length (passwordLengths_ st) - 1))
    (fun i =>
       st <- get ;;
       when (nth i (passwordLengths_ st) false &&
             Nat.leb i (List.length (typedChars_ st)))
         (checkChars_ (substr_neg i (typedChars_ st)))).

(** [passwordcatcher.handleKeypress_]; [otpNow] and [now] are the values
    of its two [new Date()]. *)
Definition handleKeypress_ (evt : Event) (otpNow now : Z) : M unit :=
  st <- get ;;
  if negb (isRunning_ st) then ret tt
  else if negb (view evt) then ret tt
  else if notAfter (timeStamp evt) (lastKeypressTimeStamp_ st) then ret tt
  else
    modify (set_lastKeypressTimeStamp_ (Some (timeStamp evt))) ;;
    st <- get ;;
    when (otpMode_ st) (otpBlock evt otpNow) ;;
    if charCode evt =? ENTER_ASCII_CODE_ then
      modify (set_typedChars_ [])
    else
      st <- get ;;
      when (elapsedMoreThan SECONDS_TO_CLEAR_ now (typedTime_ st))
        (modify (set_typedChars_ [])) ;;
      st <- get ;;
      modify (set_typedChars_ (typedChars_ st ++ fromCharCode (charCode evt))) ;;
      modify (set_typedTime_ (Some now)) ;;
      st <- get ;;
      when (Nat.ltb (List.length (passwordLengths_ st))
                    (List.length (typedChars_ st)))
        (modify (set_typedChars_
                   (slice_neg (List.length (passwordLengths_ st))
                              (typedChars_ st)))) ;;
      checkLoop.

(** ** The script as a transition system *)

Inductive Input :=
| Message (msg : StartMsg)
| Keypress (evt : Event) (otpNow now : Z)
| Response (response : bool) (now : Z).

(** A keypress as an input, and a typing burst. *)
Definition press (k : Key) : Input :=
  Keypress (keyEvent k) (keyOtpNow k) (keyNow k).

Definition presses (ks : list Key) : list Input := map press ks.

Definition isKeypress (i : Input) : bool :=
  match i with
  | Keypress _ _ _ => true
  | _ => false
  end.

Definition step (s : State) (i : Input) : State * list Effect :=
  match i with
  | Message msg => exec (onMessage msg) s
  | Keypress evt otpNow now => exec (handleKeypress_ evt otpNow now) s
  | Response r now => exec (checkCharsResponse_ r now) s
  end.

(** The state after a sequence of inputs and everything emitted. *)
Fixpoint run (s : State) (ins : list Input) : State * list Effect :=
  match ins with
  | [] => (s, [])
  | i :: r =>
      let '(s1, o1) := step s i in
      let '(s2, o2) := run s1 r in
      (s2, o1 ++ o2)
  end.

(** The handler goes past its three guards. *)
Definition accepted (s : State) (evt : Event) : bool :=
  isRunning_ s && view evt &&
  negb (notAfter (timeStamp evt) (lastKeypressTimeStamp_ s)).

(** Every event of a typing burst passes the guards of the handler. *)
Fixpoint acceptedRun (s : State) (ks : list Key) : Prop :=
  match ks with
  | [] => True
  | k :: r =>
      accepted s (keyEvent k) = true /\
      acceptedRun (fst (step s (press k))) r
  end.

(** The candidate strings of the [checkPassword] requests in a log. *)
Definition candidates (o : list Effect) : list jsString :=
  flat_map (fun e => match e with
                     | SendCheckPassword p _ _ => [p]
                     | _ => []
                     end) o.

(** The number of [otpAlert] messages in a log. *)
Definition otpAlerts (o : list Effect) : nat :=
  List.length (filter (fun e => match e with
                                | SendOtpAlert _ _ _ => true
                                | _ => false
                                end) o).

(** The requests the loop sends in a state. *)
Definition checkEffects (st : State) : list Effect :=
  map (fun i => SendCheckPassword (substr_neg i (typedChars_ st))
                                  (url_ page) (referrer page))
      (filter (fun i => Nat.leb i (List.length (typedChars_ st)))
              (watchedLengths (passwordLengths_ st))).

End Script.

(** ** Example inputs *)

(** A page that is neither the SSO nor the Google login page. *)
Definition examplePage : Page :=
  consumerPage "http://login.example.test/" "login.example.test".

(** The message of the background page for the watched lengths in [pl],
    with the tracker not armed. *)
Definition watch (pl : list bool) : StartMsg :=
  {| passwordLengths := pl; otpMode := false; otpTime := None |}.

(** Watched lengths 4 and 6, watched length 5, watched length 1. *)
Definition lengths46 : list bool :=
  [false; false; false; false; true; false; true].
Definition lengths5 : list bool :=
  [false; false; false; false; false; true].
Definition lengths1 : list bool := [false; true].


(** The state of [examplePage] once the background page has sent the
    watched lengths [pl]. *)
Definition started (pl : list bool) : State :=
  fst (run examplePage initialState [Message (watch pl)]).

(** Watched length 1; "a" then "b" are typed. *)
Definition typingAB : list Input :=
  Message (watch lengths1) :: presses [typedAt 97 1; typedAt 98 2].

(** Watched lengths 4 and 6; "xx123" has been typed, "4" follows. *)
Definition typedXX123 : State :=
  fst (run examplePage (started lengths46)
         (presses [typedAt 120 1; typedAt 120 2; typedAt 49 3;
                   typedAt 50 4; typedAt 51 5])).
Definition key4 : Key := typedAt 52 6.

(** Watched length 5; "abc" is typed in three seconds, "de" follows
    eleven seconds later. *)
Definition keysABC : list Key :=
  [typedAt 97 1000; typedAt 98 2000; typedAt 99 3000].
Definition keysDE : list Key := [typedAt 100 14000; typedAt 101 15000].

(** A verified match at time 0 arms the tracker; "123" is typed. *)
Definition armedAtZero : State :=
  fst (run examplePage (started lengths46) [Response true 0]).
Definition typed123 : State :=
  fst (run examplePage armedAtZero
         (presses [typedAt 49 1000; typedAt 50 2000; typedAt 51 3000])).


(** Five digits, a sixth and a seventh. *)
Definition fiveDigits : list Key :=
  [typedAt 49 1000; typedAt 50 2000; typedAt 51 3000; typedAt 52 4000;
   typedAt 53 5000].
Definition sixthDigit : Key := typedAt 54 6000.

(** ** Proof steps *)

(** Lays the OTP block open down to the state and the log. *)
Ltac unfold_otp :=
  unfold otpBlock, clearOtpMode_, otpAlert_, when, exec, bind, get, ret,
    modify, emit.

(** ** Typing bursts *)

(** The code units a burst of keys appends, in order. *)
Definition typedCodes (ks : list Key) : jsString :=
  flat_map (fun k => fromCharCode (charCode (keyEvent k))) ks.

(** A burst without Enter and without a pause: every event passes the
    guards, is no Enter, and comes no more than [SECONDS_TO_CLEAR_]
    seconds after the character before it. *)
Fixpoint steadyRun (page : Page) (s : State) (ks : list Key) : Prop :=
  match ks with
  | [] => True
  | k :: r =>
      accepted s (keyEvent k) = true /\
      charCode (keyEvent k) <> ENTER_ASCII_CODE_ /\
      elapsedMoreThan SECONDS_TO_CLEAR_ (keyNow k) (typedTime_ s) = false /\
      steadyRun page (fst (step page s (press k))) r
  end.

(** ** Further proof steps *)

(** Splits on every condition the goal branches on. *)
Ltac split_ifs :=
  repeat match goal with
         | |- context [if ?b then _ else _] => destruct b eqn:?
         end.

(** Turns the boolean comparisons among the hypotheses into
    inequalities. *)
Ltac leb_props :=
  repeat match goal with
         | H : (_ <=? _) = true |- _ => apply Z.leb_le in H
         | H : (_ <=? _) = false |- _ => apply Z.leb_gt in H
         | H : (_ <? _) = true |- _ => apply Z.ltb_lt in H
         | H : (_ <? _) = false |- _ => apply Z.ltb_ge in H
         end.

(** Lays [onMessage] and the callback open down to the state. *)
Ltac unfold_lifecycle :=
  unfold step, exec, onMessage, start_, stop_, checkCharsResponse_, when,
    bind, get, ret, modify, emit.

(** ** Page heuristics and page initialization *)

Definition GAIA_SECOND_FACTOR_ : string :=
  "https://accounts.google.com/SecondFactor".
Definition YOUTUBE_CHECK_URL_ : string :=
  "https://accounts.youtube.com/accounts/CheckConnection".

(** What the initialization reads besides [Page]: the tight snippets of
    the policy (or the consumer defaults), and whether the document
    holds the elements it looks up:
    [document.querySelector(sso_form_selector_)],
    [document.getElementById('gaia_loginform')] and
    [document.getElementById('Email')]. *)
Record Setup := {
  corp_html_tight_ : list string;
  ssoFormFound : bool;
  gaiaFormFound : bool;
  emailFieldFound : bool
}.

(** The number of characters of the page the tight check looks at. *)
Definition tightLimit : nat := Z.to_nat 100000.

(** [passwordcatcher.looksLikeGooglePageTight_]: the snippets are looked
    up in [innerHTML.slice(0, 100000)]. *)
Definition looksLikeGooglePageTight_ (page : Page) (setup : Setup) : bool :=
  existsb (fun snippet =>
             occursIn snippet (substring 0 tightLimit (allHtml page)))
          (corp_html_tight_ setup).

(** The test [sso_url_ && startsWith(url_, sso_url_)]. *)
Definition isSsoUrl (page : Page) : bool :=
  match sso_url_ page with
  | Some sso => negb (String.eqb sso "") && startsWith (url_ page) sso
  | None => false
  end.

Inductive SubmitHandler := SaveSsoPassword | SaveGaiaPassword.

(** What the initialization does: the messages it sends, the banner it
    injects and the listeners it installs. *)
Inductive InitEffect :=
| SendDeletePossiblePassword
| SendSavePossiblePassword
| SendLooksLikeGoogle (url referer : string)
| InjectBanner (b : Banner)
| ListenSubmit (h : SubmitHandler)
| ListenMessage
| SendStatusRequest
| ListenKeypress.

(** [passwordcatcher.completePageInitialization_] *)
Definition completePageInitialization_ (page : Page) (setup : Setup)
    : list InitEffect :=
  if startsWith (url_ page) YOUTUBE_CHECK_URL_ then []
  else
    (if isSsoUrl page then
       SendDeletePossiblePassword ::
       (if ssoFormFound setup then [ListenSubmit SaveSsoPassword] else [])
     else if startsWith (url_ page) GAIA_URL_ then
       if startsWith (url_ page) GAIA_SECOND_FACTOR_ then
         [SendSavePossiblePassword]
       else
         SendDeletePossiblePassword ::
         (if gaiaFormFound setup && emailFieldFound setup
          then [ListenSubmit SaveGaiaPassword] else [])
     else
       (if negb (whitelistUrl_ page) && looksLikeGooglePageTight_ page setup
        then [SendLooksLikeGoogle (url_ page) (referrer page);
              InjectBanner PhishingWarning]
        else []) ++
       [SendSavePossiblePassword])
    ++ [ListenMessage; SendStatusRequest; ListenKeypress].

(** The [deletePossiblePassword] and [savePossiblePassword] messages in
    a log. *)
Definition possiblePasswordMessages (l : list InitEffect) : list InitEffect :=
  filter (fun e => match e with
                   | SendDeletePossiblePassword
                   | SendSavePossiblePassword => true
                   | _ => false
                   end) l.

(** Whether a log raises the phishing warning. *)
Definition warnsOfPhishing (l : list InitEffect) : bool :=
  existsb (fun e => match e with
                    | SendLooksLikeGoogle _ _ => true
                    | InjectBanner PhishingWarning => true
                    | _ => false
                    end) l.

(** ** The SSO login form *)

(** The [value] of the input fields the username and password selectors
    match; [None] when [document.querySelector] returns [null]. *)
Record SsoForm := {
  ssoUsername : option string;
  ssoPassword : option string
}.

(** The result of a handler that may stop on a [TypeError]. *)
Inductive Outcome (A : Type) :=
| Returned (a : A)
| Thrown.
Arguments Returned {A} a.
Arguments Thrown {A}.

Inductive SsoMessage :=
| SetPossiblePassword (email password : string).

(** [element && !element.value] *)
Definition presentAndEmpty (value : option string) : bool :=
  match value with
  | Some v => String.eqb v ""
  | None => false
  end.

(** [passwordcatcher.validateSso_] *)
Definition validateSso_ (form : SsoForm) : bool :=
  if presentAndEmpty (ssoUsername form) || presentAndEmpty (ssoPassword form)
  then false else true.

(** [passwordcatcher.saveSsoPassword_]; [corp_email_domain_] is the
    string the handler appends to a username without "@". Reading
    [.value] of a [null] element throws. *)
Definition saveSsoPassword_ (corp_email_domain_ : string) (form : SsoForm)
    : Outcome (list SsoMessage) :=
  if validateSso_ form then
    match ssoUsername form with
    | None => Thrown
    | Some username =>
        match ssoPassword form with
        | None => Thrown
        | Some password =>
            let username :=
              if occursIn "@" username then username
              else (username ++ corp_email_domain_)%string in
            Returned [SetPossiblePassword username password]
        end
    end
  else Returned [].

(** ** Further example inputs *)

(** A page on a foreign domain whose HTML carries a snippet of the
    login page, and the setup that looks for it. *)
Definition lookalikePage : Page := {|
  url_ := "http://login.example.test/";
  urlDomain := "login.example.test";
  referrer := "";
  allHtml := "<html><title>Sign in - Google Accounts</title></html>";
  sso_url_ := None;
  corp_html_ := [ "<title>Sign in - Google Accounts"%string ];
  whitelist_top_domains_ := [ "accounts.google.com"%string ];
  otp_length_ := 6;
  isEnterpriseUse_ := false
|}.

Definition lookalikeSetup : Setup := {|
  corp_html_tight_ := [ "<title>Sign in - Google Accounts"%string ];
  ssoFormFound := false;
  gaiaFormFound := false;
  emailFieldFound := false
|}.

(** A page with no domain and an empty whitelist entry. *)
Definition noDomainPage : Page := {|
  url_ := "about:blank";
  urlDomain := "";
  referrer := "";
  allHtml := "";
  sso_url_ := None;
  corp_html_ := [];
  whitelist_top_domains_ := [ "accounts.google.com"%string; ""%string ];
  otp_length_ := 6;
  isEnterpriseUse_ := false
|}.

(** The Google login page. *)
Definition gaiaPage : Page :=
  consumerPage "https://accounts.google.com/ServiceLogin"
               "accounts.google.com".

(** An SSO form filled in with a bare user name. *)
Definition filledForm : SsoForm :=
  {| ssoUsername := Some "alice"%string; ssoPassword := Some "hunter2"%string |}.

(** An SSO page whose username selector matches nothing. *)
Definition noUsernameForm : SsoForm :=
  {| ssoUsername := None; ssoPassword := Some "hunter2"%string |}.

(** Watched length 3; "abc" typed in one burst after "zz". *)
Definition lengths3 : list bool := [false; false; false; true].
Definition keysZZ : list Key := [typedAt 122 100; typedAt 122 200].
Definition burstABC : list Key :=
  [typedAt 97 1000; typedAt 98 2000; typedAt 99 3000].
Definition typedZZ : State :=
  fst (run examplePage (started lengths3) (presses keysZZ)).

(** Enter, pressed after "xx123". *)
Definition enterKey : Key := typedAt 13 6.

(** A space, pressed after "123" inside the OTP window. *)
Definition spaceKey : Key := typedAt 32 4000.

(** The tracker armed by a message while the count stands at 6. *)
Definition rearmedFull : State :=
  fst (run examplePage armedAtZero
         (presses (fiveDigits ++ [sixthDigit]) ++
          [Message {| passwordLengths := lengths46; otpMode := true;
                      otpTime := Some 7000 |}])).

(** Five digits typed after the tracker was armed at time 0. *)
Definition typed12345 : State :=
  fst (run examplePage armedAtZero (presses fiveDigits)).

(** A page on a subdomain of the whitelisted domain that carries the
    same HTML as [lookalikePage]. *)
Definition subdomainPage : Page := {|
  url_ := "http://login.accounts.google.com/";
  urlDomain := "login.accounts.google.com";
  referrer := "";
  allHtml := "<html><title>Sign in - Google Accounts</title></html>";
  sso_url_ := None;
  corp_html_ := [ "<title>Sign in - Google Accounts"%string ];
  whitelist_top_domains_ := [ "accounts.google.com"%string ];
  otp_length_ := 6;
  isEnterpriseUse_ := false
|}.


(** * Properties *)

(** ** Lists and strings *)

Lemma lastChars_length (n : nat) (s : jsString) :
  n <> 0%nat -> (List.length (lastChars n s) <= n)%nat.
Proof.
  intros Hn. unfold lastChars.
  destruct (Nat.eqb_spec n 0) as [E | _]; [contradiction |].
  rewrite length_skipn. lia.
Qed.

Lemma lastChars_suffix (n : nat) (s : jsString) :
  exists p, s = p ++ lastChars n s.
Proof.
  unfold lastChars. destruct (Nat.eqb n 0).
  - exists []. reflexivity.
  - exists (firstn (List.length s - n) s). symmetry. apply firstn_skipn.
Qed.

Lemma candidates_app (a b : list Effect) :
  candidates (a ++ b) = candidates a ++ candidates b.
Proof. unfold candidates. apply flat_map_app. Qed.

Lemma otpAlerts_app (a b : list Effect) :
  otpAlerts (a ++ b) = (otpAlerts a + otpAlerts b)%nat.
Proof. unfold otpAlerts. rewrite filter_app, length_app. reflexivity. Qed.

Lemma watchedLengths_spec (pl : list bool) (i : nat) :
  In i (watchedLengths pl) <-> (1 <= i)%nat /\ nth i pl false = true.
Proof.
  unfold watchedLengths. rewrite filter_In, in_seq. split.
  - intros [[H1 _] H2]. auto.
  - intros [H1 H2]. split; [| exact H2]. split; [exact H1 |].
    destruct (Nat.lt_ge_cases i (List.length pl)) as [Hlt | Hge]; [lia |].
    rewrite nth_overflow in H2 by exact Hge. discriminate.
Qed.

Lemma fold_max_ge (l : list nat) (i : nat) :
  In i l -> (i <= fold_right Nat.max 0%nat l)%nat.
Proof.
  induction l as [| x l IH]; simpl; [contradiction |].
  intros [-> | Hin]; [lia |]. specialize (IH Hin). lia.
Qed.

Lemma fold_max_lt (l : list nat) (b : nat) :
  (0 < b)%nat -> (forall i, In i l -> (i < b)%nat) ->
  (fold_right Nat.max 0%nat l < b)%nat.
Proof.
  intros Hb. induction l as [| x l IH]; simpl; intros H; [exact Hb |].
  assert (x < b)%nat by (apply H; auto).
  assert (fold_right Nat.max 0%nat l < b)%nat by (apply IH; intros; apply H; auto).
  lia.
Qed.

(** The largest watched length is below the length of the array. *)
Lemma maxLength_lt (pl : list bool) :
  pl <> [] -> (maxLength pl < List.length pl)%nat.
Proof.
  intros Hne. unfold maxLength. apply fold_max_lt.
  - destruct pl; [contradiction | simpl; lia].
  - intros i Hi. unfold watchedLengths in Hi.
    apply filter_In in Hi. destruct Hi as [Hi _]. apply in_seq in Hi. lia.
Qed.

(** When the last entry of the array is [true] (the array is no longer
    than it has to be), its length is the largest watched length plus
    one. *)
Lemma maxLength_last (pl : list bool) :
  last pl false = true -> List.length pl = S (maxLength pl).
Proof.
  intros Hlast.
  assert (Hne : pl <> []) by (destruct pl; [discriminate | discriminate]).
  pose proof (maxLength_lt pl Hne) as Hlt.
  destruct (Nat.le_gt_cases (List.length pl) 1) as [Hone | Hmany]; [lia |].
  assert (Hin : In (List.length pl - 1)%nat (watchedLengths pl)).
  { apply watchedLengths_spec. split; [lia |].
    destruct (exists_last Hne) as [l' [b Hpl]]. subst pl.
    rewrite last_last in Hlast. subst b.
    rewrite length_app. simpl.
    replace (List.length l' + 1 - 1)%nat with (List.length l') by lia.
    rewrite app_nth2 by lia. rewrite Nat.sub_diag. reflexivity. }
  apply fold_max_ge in Hin. fold (maxLength pl) in Hin. lia.
Qed.

Lemma NoDup_watchedLengths (pl : list bool) : NoDup (watchedLengths pl).
Proof. unfold watchedLengths. apply NoDup_filter, seq_NoDup. Qed.

Lemma typedAfter_length (pl : list bool) (typed : jsString)
    (typedTime : option Z) (c now : Z) :
  pl <> [] ->
  (List.length (typedAfter pl typed typedTime c now) <= List.length pl)%nat.
Proof.
  intros Hne. unfold typedAfter.
  match goal with
  | |- context [Nat.ltb ?a ?b] => destruct (Nat.ltb_spec a b) as [Hlt | Hge]
  end.
  - apply lastChars_length. destruct pl; [contradiction | discriminate].
  - exact Hge.
Qed.

Lemma last_skipn (s : jsString) (k : nat) (d : Z) :
  (k < List.length s)%nat -> last (skipn k s) d = last s d.
Proof.
  revert s. induction k as [| k IH]; intros s Hk; [reflexivity |].
  destruct s as [| x s]; [simpl in Hk; lia |].
  simpl in Hk. cbn [skipn]. rewrite IH by lia.
  destruct s; [simpl in Hk; lia | reflexivity].
Qed.

Lemma last_lastChars (n : nat) (s : jsString) (d : Z) :
  (1 <= n)%nat -> s <> [] -> last (lastChars n s) d = last s d.
Proof.
  intros Hn Hs. unfold lastChars. destruct (Nat.eqb n 0); [reflexivity |].
  apply last_skipn. destruct s; [contradiction | cbn [List.length]; lia].
Qed.

Lemma typedAfter_fresh (pl : list bool) (typed : jsString)
    (typedTime : option Z) (c now : Z) :
  typed = [] \/ elapsedMoreThan SECONDS_TO_CLEAR_ now typedTime = true ->
  typedAfter pl typed typedTime c now = fromCharCode c.
Proof.
  intros H. unfold typedAfter.
  assert (E : (if elapsedMoreThan SECONDS_TO_CLEAR_ now typedTime
               then [] else typed) = [])
    by (destruct H as [-> | ->]; [destruct (elapsedMoreThan _ _ _) |];
        reflexivity).
  rewrite E. cbn [app].
  destruct pl; reflexivity.
Qed.

Lemma typedAfter_last (pl : list bool) (typed : jsString)
    (typedTime : option Z) (c now : Z) :
  pl <> [] ->
  typedAfter pl typed typedTime c now <> [] /\
  last (typedAfter pl typed typedTime c now) 0 = c mod 65536.
Proof.
  intros Hne. unfold typedAfter, fromCharCode, slice_neg.
  set (kept := if elapsedMoreThan _ _ _ then [] else typed).
  assert (Hnil : kept ++ [c mod 65536] <> [])
    by (destruct kept; discriminate).
  assert (Hpl : (1 <= List.length pl)%nat)
    by (destruct pl; [contradiction | simpl; lia]).
  destruct (Nat.ltb _ _).
  - split.
    + unfold lastChars. destruct (Nat.eqb_spec (List.length pl) 0); [lia |].
      intros E. apply (f_equal (@List.length Z)) in E.
      rewrite length_skipn, length_app in E. simpl in E. lia.
    + rewrite last_lastChars by assumption. apply last_last.
  - split; [exact Hnil | apply last_last].
Qed.

(** ** Suffixes of page strings *)

Lemma substring_whole (s : string) : substring 0 (String.length s) s = s.
Proof. induction s as [| a s IH]; cbn; [| rewrite IH]; reflexivity. Qed.

Lemma prefix_refl (s : string) : String.prefix s s = true.
Proof. apply prefix_correct. apply substring_whole. Qed.

Lemma substring_split (s : string) (n : nat) :
  (n <= String.length s)%nat ->
  s = (substring 0 n s ++ substring n (String.length s - n) s)%string.
Proof.
  revert n. induction s as [| a s IH]; intros n Hn.
  - destruct n; [reflexivity | cbn in Hn; lia].
  - destruct n as [| n].
    + cbn. rewrite substring_whole. reflexivity.
    + cbn in Hn. cbn. rewrite <- IH by lia. reflexivity.
Qed.

Lemma length_append (p s : string) :
  String.length (p ++ s) = (String.length p + String.length s)%nat.
Proof. induction p as [| a p IH]; cbn; [| rewrite IH]; reflexivity. Qed.

Lemma index_append (p s : string) :
  String.index (String.length p) s (p ++ s) = Some (String.length p).
Proof.
  induction p as [| a p IH].
  - cbn. destruct s as [| c s]; [reflexivity |].
    cbn [String.index]. rewrite prefix_refl. reflexivity.
  - cbn [String.length append String.index]. rewrite IH. reflexivity.
Qed.

(** [endsWith] holds exactly of the strings that end with the suffix. *)
Lemma endsWith_spec (str suffix : string) :
  endsWith str suffix = true <-> exists p, str = (p ++ suffix)%string.
Proof.
  unfold endsWith. split.
  - intros H. apply andb_prop in H. destruct H as [Hl Hi].
    apply Z.leb_le in Hl.
    destruct (String.index _ suffix str) as [m |] eqn:E; [| discriminate].
    apply Nat.eqb_eq in Hi. subst m.
    apply index_correct1 in E.
    set (l := Z.to_nat (Z.of_nat (String.length str) -
                        Z.of_nat (String.length suffix))) in *.
    exists (substring 0 l str).
    rewrite <- E at 1.
    replace (String.length suffix) with (String.length str - l)%nat
      by (unfold l; lia).
    apply substring_split. unfold l. lia.
  - intros [p ->]. rewrite length_append.
    replace (Z.of_nat (String.length p + String.length suffix) -
             Z.of_nat (String.length suffix)) with (Z.of_nat (String.length p))
      by lia.
    rewrite Nat2Z.id, index_append, Nat.eqb_refl.
    apply andb_true_intro. split; [apply Z.leb_le; lia | reflexivity].
Qed.

Section ScriptFacts.

Variable page : Page.

(** ** The loop of candidate checks *)

Lemma forEach_checks (st : State) (l : list nat) :
  forEach l
    (fun i =>
       st <- get ;;
       when (nth i (passwordLengths_ st) false &&
             Nat.leb i (List.length (typedChars_ st)))
         (checkChars_ page (substr_neg i (typedChars_ st)))) st
  = (tt, st,
     map (fun i => SendCheckPassword (substr_neg i (typedChars_ st))
                                     (url_ page) (referrer page))
         (filter (fun i => Nat.leb i (List.length (typedChars_ st)))
                 (filter (fun i => nth i (passwordLengths_ st) false) l))).
Proof.
  induction l as [| i l IH]; [reflexivity |].
  cbn [forEach]. unfold bind at 1.
  replace ((st0 <- get ;;
            when (nth i (passwordLengths_ st0) false &&
                  Nat.leb i (List.length (typedChars_ st0)))
              (checkChars_ page (substr_neg i (typedChars_ st0)))) st)
    with (tt, st,
          if nth i (passwordLengths_ st) false &&
             Nat.leb i (List.length (typedChars_ st))
          then [SendCheckPassword (substr_neg i (typedChars_ st))
                                  (url_ page) (referrer page)]
          else [])
    by (unfold bind, get, when, checkChars_, emit, ret;
        destruct (nth i (passwordLengths_ st) false &&
                  Nat.leb i (List.length (typedChars_ st)));
        reflexivity).
  rewrite IH. cbn [filter].
  destruct (nth i (passwordLengths_ st) false); cbn [andb].
  - cbn [filter].
    destruct (Nat.leb i (List.length (typedChars_ st))); reflexivity.
  - reflexivity.
Qed.

Lemma checkLoop_run (st : State) :
  checkLoop page st = (tt, st, checkEffects page st).
Proof.
  unfold checkLoop, bind at 1, get at 1. cbv beta iota.
  rewrite forEach_checks. reflexivity.
Qed.

Lemma candidates_checkEffects (st : State) :
  candidates (checkEffects page st) =
  map (fun i => lastChars i (typedChars_ st))
      (filter (fun i => Nat.leb i (List.length (typedChars_ st)))
              (watchedLengths (passwordLengths_ st))).
Proof.
  unfold checkEffects.
  induction (filter _ (watchedLengths (passwordLengths_ st))) as [| i l IH];
    [reflexivity |].
  cbn. f_equal. exact IH.
Qed.

Lemma otpAlerts_checkEffects (st : State) :
  otpAlerts (checkEffects page st) = 0%nat.
Proof.
  unfold checkEffects.
  induction (filter _ (watchedLengths (passwordLengths_ st))) as [| i l IH];
    [reflexivity |].
  cbn. exact IH.
Qed.

(** ** The handler, guard by guard *)

Lemma accepted_true (st : State) (evt : Event) :
  accepted st evt = true ->
  isRunning_ st = true /\ view evt = true /\
  notAfter (timeStamp evt) (lastKeypressTimeStamp_ st) = false.
Proof.
  unfold accepted. intros H.
  apply andb_prop in H. destruct H as [H H3].
  apply andb_prop in H. destruct H as [H1 H2].
  apply negb_true_iff in H3. auto.
Qed.

(** An event that fails a guard changes nothing and sends nothing. *)
Lemma handleKeypress_rejected (st : State) (evt : Event) (otpNow now : Z) :
  accepted st evt = false ->
  exec (handleKeypress_ page evt otpNow now) st = (st, []).
Proof.
  unfold accepted, handleKeypress_, exec, bind, get, ret. intros H.
  destruct (isRunning_ st); [| reflexivity].
  destruct (view evt); [| reflexivity].
  cbn in H. apply negb_false_iff in H. cbn. rewrite H. reflexivity.
Qed.

(** An event that passes the guards: the timestamp is recorded, the
    OTP block runs when the tracker is armed, then Enter empties the
    buffer, and any other character is appended and the candidates are
    sent. *)
Lemma handleKeypress_accepted (st : State) (evt : Event) (otpNow now : Z) :
  accepted st evt = true ->
  exec (handleKeypress_ page evt otpNow now) st =
  let s1 := set_lastKeypressTimeStamp_ (Some (timeStamp evt)) st in
  let r := exec (when (otpMode_ s1) (otpBlock page evt otpNow)) s1 in
  if charCode evt =? ENTER_ASCII_CODE_ then
    (set_typedChars_ [] (fst r), snd r)
  else
    let s3 :=
      set_typedChars_
        (typedAfter (passwordLengths_ (fst r)) (typedChars_ (fst r))
                    (typedTime_ (fst r)) (charCode evt) now)
        (set_typedTime_ (Some now) (fst r)) in
    (s3, snd r ++ checkEffects page s3).
Proof.
  intros Hacc. apply accepted_true in Hacc. destruct Hacc as [H1 [H2 H3]].
  unfold handleKeypress_, typedAfter.
  generalize (otpBlock page evt otpNow). intros m.
  pose proof checkLoop_run as Hcl. revert Hcl.
  generalize (checkLoop page). intros cl Hcl.
  unfold exec, bind, get, ret, modify, when. rewrite H1, H2, H3.
  cbn -[Nat.ltb].
  match goal with
  | |- context [(if otpMode_ st then m else ?e) ?s] =>
      destruct ((if otpMode_ st then m else e) s) as [[u s2] o1]
  end.
  cbn -[Nat.ltb].
  destruct (charCode evt =? ENTER_ASCII_CODE_).
  - cbn. rewrite ?app_nil_r. reflexivity.
  - destruct (elapsedMoreThan SECONDS_TO_CLEAR_ now (typedTime_ s2));
      cbn -[Nat.ltb];
      match goal with
      | |- context [Nat.ltb ?a ?b] => destruct (Nat.ltb a b)
      end; cbn; rewrite Hcl; cbn; reflexivity.
Qed.

(** ** The OTP block *)

(** The block touches the tracker only and sends no candidate. *)
Lemma otpBlock_frame (s : State) (evt : Event) (otpNow : Z) :
  let r := exec (when (otpMode_ s) (otpBlock page evt otpNow)) s in
  isRunning_ (fst r) = isRunning_ s /\
  typedChars_ (fst r) = typedChars_ s /\
  typedTime_ (fst r) = typedTime_ s /\
  lastKeypressTimeStamp_ (fst r) = lastKeypressTimeStamp_ s /\
  passwordLengths_ (fst r) = passwordLengths_ s /\
  otpTime_ (fst r) = otpTime_ s /\
  candidates (snd r) = [].
Proof.
  unfold_otp.
  repeat match goal with
         | |- context [if ?b then _ else _] => destruct b
         end; cbn; repeat split; reflexivity.
Qed.



(** A digit inside the window is counted; the count that reaches
    [otp_length_] sends the alert and disarms the tracker. *)
Lemma otpBlock_digit (s : State) (evt : Event) (otpNow : Z) :
  otpMode_ s = true ->
  elapsedMoreThan SECONDS_TO_CLEAR_OTP_ otpNow (otpTime_ s) = false ->
  0x30 <= charCode evt <= 0x39 ->
  exec (when (otpMode_ s) (otpBlock page evt otpNow)) s =
  if otp_length_ page <=? otpCount_ s + 1
  then (set_otpMode_ false (set_otpCount_ (otpCount_ s + 1) s),
        [SendOtpAlert (url_ page) (referrer page) (looksLikeGooglePage_ page);
         SendClearOtpMode])
  else (set_otpCount_ (otpCount_ s + 1) s, []).
Proof.
  intros Hm He [Hlo Hhi]. unfold_otp. rewrite Hm, He.
  apply Z.leb_le in Hlo, Hhi. rewrite Hlo, Hhi. cbn.
  destruct (otp_length_ page <=? otpCount_ s + 1); reflexivity.
Qed.

(** A character above 0x20 that is no digit disarms the tracker. *)
Lemma otpBlock_printable (s : State) (evt : Event) (otpNow : Z) :
  otpMode_ s = true ->
  elapsedMoreThan SECONDS_TO_CLEAR_OTP_ otpNow (otpTime_ s) = false ->
  ~ (0x30 <= charCode evt <= 0x39) ->
  0x20 < charCode evt ->
  exec (when (otpMode_ s) (otpBlock page evt otpNow)) s =
  (set_otpMode_ false s,
   SendClearOtpMode ::
   if otp_length_ page <=? otpCount_ s
   then [SendOtpAlert (url_ page) (referrer page) (looksLikeGooglePage_ page);
         SendClearOtpMode]
   else []).
Proof.
  intros Hm He Hnd Hp. unfold_otp. rewrite Hm, He.
  assert (Hd : (0x30 <=? charCode evt) && (charCode evt <=? 0x39) = false).
  { apply andb_false_iff.
    destruct (Z.leb_spec 0x30 (charCode evt)); [right | left; reflexivity].
    apply Z.leb_gt. lia. }
  rewrite Hd. apply Z.ltb_lt in Hp. rewrite Hp. cbn.
  destruct (otp_length_ page <=? otpCount_ s); reflexivity.
Qed.

(** A character up to 0x20 before any digit was counted leaves the
    tracker as it is. *)
Lemma otpBlock_nonprintable_start (s : State) (evt : Event) (otpNow : Z) :
  otpMode_ s = true ->
  elapsedMoreThan SECONDS_TO_CLEAR_OTP_ otpNow (otpTime_ s) = false ->
  charCode evt <= 0x20 ->
  otpCount_ s <= 0 ->
  otpCount_ s < otp_length_ page ->
  exec (when (otpMode_ s) (otpBlock page evt otpNow)) s = (s, []).
Proof.
  intros Hm He Hnp Hc Hlen. unfold_otp. rewrite Hm, He.
  assert (Hd : (0x30 <=? charCode evt) && (charCode evt <=? 0x39) = false).
  { apply andb_false_iff. left. apply Z.leb_gt. lia. }
  rewrite Hd.
  assert (Hp : (0x20 <? charCode evt) || (0 <? otpCount_ s) = false).
  { apply orb_false_iff. split; apply Z.ltb_ge; lia. }
  rewrite Hp. cbn.
  assert (Hl : (otp_length_ page <=? otpCount_ s) = false)
    by (apply Z.leb_gt; lia).
  rewrite Hl. reflexivity.
Qed.

(** ** Dropped events *)

(** C4. An event with a null view, or with a timestamp not after the
    timestamp of the last accepted event, is dropped: the whole state
    (buffer, last accepted timestamp, OTP tracker) is the same and
    nothing is sent, neither a candidate check nor an alert. *)
Theorem invalid_event_is_dropped
    (st : State) (evt : Event) (otpNow now : Z) :
  view evt = false \/
  (exists t, lastKeypressTimeStamp_ st = Some t /\ timeStamp evt <= t) ->
  exec (handleKeypress_ page evt otpNow now) st = (st, []).
Proof.
  intros H. apply handleKeypress_rejected. unfold accepted.
  destruct H as [Hv | [t [Hl Hle]]].
  - rewrite Hv. apply andb_false_iff. left. apply andb_false_r.
  - rewrite Hl. cbn. apply Z.leb_le in Hle. rewrite Hle.
    apply andb_false_r.
Qed.

Lemma run_stopped (s : State) (ks : list Key) :
  isRunning_ s = false -> run page s (presses ks) = (s, []).
Proof.
  intros Hs. induction ks as [| k ks IH]; [reflexivity |].
  cbn [presses map run]. unfold press at 1. cbn [step].
  rewrite handleKeypress_rejected by (unfold accepted; rewrite Hs; reflexivity).
  fold (presses ks). rewrite IH. reflexivity.
Qed.

(** C8. After [stop_] the monitor is not running, and any sequence of
    keypress events leaves the state as [stop_] left it and sends
    nothing. *)
Theorem stopped_monitor_ignores_keypresses (st : State) (ks : list Key) :
  let stopped := fst (exec stop_ st) in
  isRunning_ stopped = false /\
  run page stopped (presses ks) = (stopped, []).
Proof.
  cbn zeta. split; [reflexivity |]. apply run_stopped. reflexivity.
Qed.

(** ** The first keypress *)

Lemma step_keeps_timestamp (s : State) (i : Input) :
  isKeypress i = false ->
  lastKeypressTimeStamp_ (fst (step page s i)) = lastKeypressTimeStamp_ s.
Proof.
  destruct i as [msg | evt o n | r n]; intros H; [| discriminate |].
  - unfold step, exec, onMessage, start_, stop_, when, bind, get, ret, modify.
    cbn.
    repeat match goal with
           | |- context [if ?b then _ else _] => destruct b
           end; reflexivity.
  - unfold step, exec, checkCharsResponse_, when, bind, get, ret, modify, emit.
    repeat match goal with
           | |- context [if ?b then _ else _] => destruct b
           end; reflexivity.
Qed.

Lemma run_keeps_timestamp (s : State) (ins : list Input) :
  forallb (fun i => negb (isKeypress i)) ins = true ->
  lastKeypressTimeStamp_ (fst (run page s ins)) = lastKeypressTimeStamp_ s.
Proof.
  revert s. induction ins as [| i ins IH]; intros s H; [reflexivity |].
  cbn [forallb] in H. apply andb_prop in H. destruct H as [Hi Hr].
  apply negb_true_iff in Hi.
  cbn [run]. pose proof (step_keeps_timestamp s i Hi) as Hs.
  destruct (step page s i) as [s1 o1]. cbn [fst] in Hs.
  specialize (IH s1 Hr). destruct (run page s1 ins) as [s2 o2].
  cbn [fst] in *. congruence.
Qed.

(** C10. Before any keypress event has been handled (whatever messages
    and responses arrived since the script was loaded) no timestamp is
    recorded, so the ordering guard lets the first event through
    whatever its timestamp; once that event is accepted its timestamp
    is recorded, and an event whose timestamp is not after it is
    dropped. *)
Theorem first_keypress_passes_timestamp_guard
    (ins : list Input) (evt : Event) (otpNow now : Z) :
  forallb (fun i => negb (isKeypress i)) ins = true ->
  let st := fst (run page initialState ins) in
  lastKeypressTimeStamp_ st = None /\
  notAfter (timeStamp evt) (lastKeypressTimeStamp_ st) = false /\
  (isRunning_ st = true -> view evt = true ->
   let st1 := fst (exec (handleKeypress_ page evt otpNow now) st) in
   accepted st evt = true /\
   lastKeypressTimeStamp_ st1 = Some (timeStamp evt) /\
   forall (evt2 : Event) (otpNow2 now2 : Z),
     timeStamp evt2 <= timeStamp evt ->
     exec (handleKeypress_ page evt2 otpNow2 now2) st1 = (st1, [])).
Proof.
  intros Hins st.
  assert (Hnone : lastKeypressTimeStamp_ st = None)
    by (unfold st; rewrite run_keeps_timestamp by exact Hins; reflexivity).
  split; [exact Hnone |]. split; [rewrite Hnone; reflexivity |].
  intros Hrun Hview st1.
  assert (Hacc : accepted st evt = true)
    by (unfold accepted; rewrite Hrun, Hview, Hnone; reflexivity).
  split; [exact Hacc |].
  assert (Hl : lastKeypressTimeStamp_ st1 = Some (timeStamp evt)).
  { unfold st1. rewrite (handleKeypress_accepted _ _ _ _ Hacc). cbn zeta.
    pose proof (otpBlock_frame
                  (set_lastKeypressTimeStamp_ (Some (timeStamp evt)) st)
                  evt otpNow) as F.
    cbn zeta in F. destruct F as [_ [_ [_ [F _]]]].
    destruct (charCode evt =? ENTER_ASCII_CODE_); cbn; exact F. }
  split; [exact Hl |].
  intros evt2 otpNow2 now2 Hle.
  apply handleKeypress_rejected. unfold accepted. rewrite Hl. cbn.
  apply Z.leb_le in Hle. rewrite Hle. apply andb_false_r.
Qed.

(** ** The OTP tracker *)

(** The tracker after an accepted event is the tracker the OTP block
    leaves, and the alerts are those of the block. *)
Lemma handleKeypress_tracker (st : State) (evt : Event) (otpNow now : Z) :
  accepted st evt = true ->
  let s1 := set_lastKeypressTimeStamp_ (Some (timeStamp evt)) st in
  let q := exec (when (otpMode_ s1) (otpBlock page evt otpNow)) s1 in
  let r := exec (handleKeypress_ page evt otpNow now) st in
  otpMode_ (fst r) = otpMode_ (fst q) /\
  otpCount_ (fst r) = otpCount_ (fst q) /\
  otpAlerts (snd r) = otpAlerts (snd q) /\
  (snd q <> [] -> hd_error (snd r) = hd_error (snd q)).
Proof.
  intros Hacc. cbn zeta.
  rewrite (handleKeypress_accepted _ _ _ _ Hacc). cbn zeta.
  destruct (charCode evt =? ENTER_ASCII_CODE_); cbn [fst snd].
  - repeat split; reflexivity.
  - rewrite otpAlerts_app, otpAlerts_checkEffects, Nat.add_0_r.
    repeat split; try reflexivity.
    intros Hne.
    destruct (snd (exec (when _ (otpBlock page evt otpNow)) _));
      [contradiction | reflexivity].
Qed.


(** C6. The tracker is armed, inside its window, and no digit has been
    counted. An accepted event whose character code is above 0x20 and is
    no digit disarms the tracker; one whose character code is at most
    0x20 leaves it armed, with the count still 0 and no alert sent
    ([otp_length_] being positive). *)
Theorem nondigit_at_start_of_otp
    (st : State) (evt : Event) (otpNow now : Z) :
  accepted st evt = true ->
  otpMode_ st = true ->
  elapsedMoreThan SECONDS_TO_CLEAR_OTP_ otpNow (otpTime_ st) = false ->
  otpCount_ st = 0 ->
  ~ (0x30 <= charCode evt <= 0x39) ->
  let r := exec (handleKeypress_ page evt otpNow now) st in
  (0x20 < charCode evt -> otpMode_ (fst r) = false) /\
  (charCode evt <= 0x20 -> 0 < otp_length_ page ->
   otpMode_ (fst r) = true /\ otpCount_ (fst r) = 0 /\
   otpAlerts (snd r) = 0%nat).
Proof.
  intros Hacc Hm He Hc Hnd.
  pose proof (handleKeypress_tracker st evt otpNow now Hacc) as T.
  cbn zeta in T |- *. split.
  - intros Hp. rewrite otpBlock_printable in T by assumption.
    cbn [fst snd] in T. destruct T as [T1 _]. exact T1.
  - intros Hnp Hlen. rewrite otpBlock_nonprintable_start in T;
      try assumption; try (cbn; lia).
    cbn [fst snd] in T. destruct T as [T1 [T2 [T3 _]]].
    cbn in T1, T2, T3. rewrite T1, T2, T3. auto.
Qed.

(** ** The rolling buffer *)

(** What an accepted event does to the buffer and what it leaves
    alone. *)
Lemma handleKeypress_buffer (st : State) (evt : Event) (otpNow now : Z) :
  accepted st evt = true ->
  let r := exec (handleKeypress_ page evt otpNow now) st in
  isRunning_ (fst r) = true /\
  passwordLengths_ (fst r) = passwordLengths_ st /\
  lastKeypressTimeStamp_ (fst r) = Some (timeStamp evt) /\
  otpTime_ (fst r) = otpTime_ st /\
  typedChars_ (fst r) =
    (if charCode evt =? ENTER_ASCII_CODE_ then []
     else typedAfter (passwordLengths_ st) (typedChars_ st) (typedTime_ st)
                     (charCode evt) now) /\
  typedTime_ (fst r) =
    (if charCode evt =? ENTER_ASCII_CODE_ then typedTime_ st else Some now) /\
  candidates (snd r) =
    (if charCode evt =? ENTER_ASCII_CODE_ then []
     else candidates (checkEffects page (fst r))).
Proof.
  intros Hacc. cbn zeta.
  rewrite (handleKeypress_accepted _ _ _ _ Hacc). cbn zeta.
  pose proof (otpBlock_frame
                (set_lastKeypressTimeStamp_ (Some (timeStamp evt)) st)
                evt otpNow) as F.
  cbn zeta in F. revert F.
  match goal with
  | |- context [exec (when ?b ?m) ?s] =>
      destruct (exec (when b m) s) as [s2 o1]
  end.
  cbn -[candidates]. intros [F1 [F2 [F3 [F4 [F5 [F6 F7]]]]]].
  apply accepted_true in Hacc. destruct Hacc as [Hrun _].
  destruct (charCode evt =? ENTER_ASCII_CODE_); cbn -[candidates].
  - rewrite F1, F3, F4, F5, F6, F7. auto 10.
  - rewrite candidates_app, F7, F1, F2, F3, F4, F5, F6. auto 10.
Qed.

(** C2. After an accepted event other than Enter, the candidates sent
    are the suffixes of the buffer of the lengths [i] that are watched
    (positive, with a [true] flag at offset [i]) and not longer than the
    buffer, each once, shortest first. With watched lengths 4 and 6 and
    the buffer "xx1234" these are "1234" and "xx1234". *)
Theorem candidates_for_watched_lengths
    (st : State) (evt : Event) (otpNow now : Z) :
  accepted st evt = true ->
  charCode evt <> ENTER_ASCII_CODE_ ->
  let r := exec (handleKeypress_ page evt otpNow now) st in
  let buffer := typedChars_ (fst r) in
  let pl := passwordLengths_ (fst r) in
  candidates (snd r) =
    map (fun i => lastChars i buffer)
        (filter (fun i => Nat.leb i (List.length buffer))
                (watchedLengths pl)) /\
  NoDup (watchedLengths pl) /\
  (forall i, In i (watchedLengths pl) <->
             (1 <= i)%nat /\ nth i pl false = true) /\
  (pl = lengths46 -> buffer = codes "xx1234" ->
   candidates (snd r) = [codes "1234"; codes "xx1234"]).
Proof.
  intros Hacc Hne. cbn zeta.
  pose proof (handleKeypress_buffer st evt otpNow now Hacc) as B.
  cbn zeta in B. destruct B as [_ [_ [_ [_ [_ [_ B]]]]]].
  apply Z.eqb_neq in Hne. rewrite Hne in B.
  rewrite candidates_checkEffects in B.
  split; [exact B |]. split; [apply NoDup_watchedLengths |].
  split; [intros i; apply watchedLengths_spec |].
  intros Hpl Hbuf. rewrite B, Hpl, Hbuf. reflexivity.
Qed.

Lemma step_bufferBounded (s : State) (i : Input) :
  bufferBounded s -> bufferBounded (fst (step page s i)).
Proof.
  intros Inv. destruct i as [msg | evt o n | r n]; cbn [step].
  - unfold bufferBounded, exec, onMessage, start_, stop_, when, bind, get,
      ret, modify. cbn.
    destruct (passwordLengths msg) as [| b pl] eqn:Hpl; cbn;
      [discriminate |].
    destruct (otpMode msg); cbn; destruct (isSafeUrl page); cbn;
      intros H; try discriminate; (split; [discriminate | lia]).
  - destruct (accepted s evt) eqn:Hacc.
    + pose proof (handleKeypress_buffer s evt o n Hacc) as B.
      cbn zeta in B. destruct B as [_ [Bpl [_ [_ [Bt _]]]]].
      apply accepted_true in Hacc. destruct Hacc as [Hrun _].
      destruct (Inv Hrun) as [Hne Hlen].
      intros _. rewrite Bpl, Bt. split; [exact Hne |].
      destruct (charCode evt =? ENTER_ASCII_CODE_); [cbn; lia |].
      apply typedAfter_length. exact Hne.
    + rewrite handleKeypress_rejected by exact Hacc. exact Inv.
  - unfold bufferBounded, exec, checkCharsResponse_, when, bind, get, ret,
      modify, emit in *.
    destruct r; [destruct (negb (isEnterpriseUse_ page)) |]; cbn; exact Inv.
Qed.

Lemma run_bufferBounded (s : State) (ins : list Input) :
  bufferBounded s -> bufferBounded (fst (run page s ins)).
Proof.
  revert s. induction ins as [| i ins IH]; intros s Inv; [exact Inv |].
  cbn [run]. pose proof (step_bufferBounded s i Inv) as Hs.
  destruct (step page s i) as [s1 o1]. cbn [fst] in Hs.
  specialize (IH s1 Hs). destruct (run page s1 ins). exact IH.
Qed.

(** C1, as the code has it. Whatever inputs the script has received
    since it was loaded, while the monitor runs the buffer is no longer
    than the array [passwordLengths_]; when the last entry of the array
    is a watched length, that is the largest watched length plus one. *)
Theorem buffer_bounded_by_array_length (ins : list Input) :
  let st := fst (run page initialState ins) in
  isRunning_ st = true ->
  (List.length (typedChars_ st) <= List.length (passwordLengths_ st))%nat /\
  (last (passwordLengths_ st) false = true ->
   (List.length (typedChars_ st) <= S (maxLength (passwordLengths_ st)))%nat).
Proof.
  intros st Hrun.
  assert (Inv : bufferBounded st).
  { apply run_bufferBounded. intros H. discriminate. }
  destruct (Inv Hrun) as [_ Hlen]. split; [exact Hlen |].
  intros Hlast. rewrite <- (maxLength_last _ Hlast). exact Hlen.
Qed.

(** ** Pauses *)

Lemma run_cons (s : State) (i : Input) (r : list Input) :
  run page s (i :: r) =
  (fst (run page (fst (step page s i)) r),
   snd (step page s i) ++ snd (run page (fst (step page s i)) r)).
Proof.
  cbn [run]. destruct (step page s i) as [s1 o1]. cbn [fst snd].
  destruct (run page s1 r) as [s2 o2]. reflexivity.
Qed.

Lemma press_buffer (st : State) (k : Key) :
  accepted st (keyEvent k) = true ->
  let r := step page st (press k) in
  isRunning_ (fst r) = true /\
  passwordLengths_ (fst r) = passwordLengths_ st /\
  lastKeypressTimeStamp_ (fst r) = Some (timeStamp (keyEvent k)) /\
  otpTime_ (fst r) = otpTime_ st /\
  typedChars_ (fst r) =
    (if charCode (keyEvent k) =? ENTER_ASCII_CODE_ then []
     else typedAfter (passwordLengths_ st) (typedChars_ st) (typedTime_ st)
                     (charCode (keyEvent k)) (keyNow k)) /\
  typedTime_ (fst r) =
    (if charCode (keyEvent k) =? ENTER_ASCII_CODE_
     then typedTime_ st else Some (keyNow k)) /\
  candidates (snd r) =
    (if charCode (keyEvent k) =? ENTER_ASCII_CODE_ then []
     else candidates (checkEffects page (fst r))).
Proof.
  exact (handleKeypress_buffer st (keyEvent k) (keyOtpNow k) (keyNow k)).
Qed.

(** The candidates of an accepted event end with the character typed. *)
Lemma candidate_last (st : State) (k : Key) (c : jsString) :
  accepted st (keyEvent k) = true ->
  passwordLengths_ st <> [] ->
  In c (candidates (snd (step page st (press k)))) ->
  last c 0 = charCode (keyEvent k) mod 65536.
Proof.
  intros Hacc Hne Hin.
  pose proof (press_buffer st k Hacc) as B. cbn zeta in B.
  destruct B as [_ [Bpl [_ [_ [Bt [_ Bc]]]]]].
  rewrite Bc in Hin.
  destruct (charCode (keyEvent k) =? ENTER_ASCII_CODE_); [contradiction |].
  rewrite candidates_checkEffects in Hin.
  apply in_map_iff in Hin. destruct Hin as [i [Hc Hi]]. subst c.
  apply filter_In in Hi. destruct Hi as [Hi _].
  apply watchedLengths_spec in Hi. destruct Hi as [Hi _].
  rewrite Bt.
  destruct (typedAfter_last (passwordLengths_ st) (typedChars_ st)
              (typedTime_ st) (charCode (keyEvent k)) (keyNow k) Hne)
    as [Hnil Hlast].
  rewrite last_lastChars by assumption. exact Hlast.
Qed.

(** C3. Of two consecutive accepted keypresses whose clock readings are
    more than [SECONDS_TO_CLEAR_] seconds apart, the second (when it is
    not Enter) leaves a buffer that holds its own character only.
    Hence with watched length 5, typing "abc", pausing for more than
    10 seconds and typing "de" sends no candidate "abcde". *)
Theorem pause_restarts_buffer :
  (forall (st : State) (k1 k2 : Key),
     acceptedRun page st [k1; k2] ->
     SECONDS_TO_CLEAR_ * 1000 < keyNow k2 - keyNow k1 ->
     charCode (keyEvent k2) <> ENTER_ASCII_CODE_ ->
     typedChars_ (fst (run page st (presses [k1; k2]))) =
     fromCharCode (charCode (keyEvent k2))) /\
  (forall (st : State) (ka kb kc kd ke : Key),
     passwordLengths_ st = lengths5 ->
     map (fun k => charCode (keyEvent k)) [ka; kb; kc; kd; ke] =
       codes "abcde" ->
     acceptedRun page st [ka; kb; kc; kd; ke] ->
     SECONDS_TO_CLEAR_ * 1000 < keyNow kd - keyNow kc ->
     ~ In (codes "abcde")
          (candidates (snd (run page st (presses [ka; kb; kc; kd; ke]))))).
Proof.
  split.
  - intros st k1 k2 [H1 [H2 _]] Hgap Hc2.
    unfold presses. cbn [map]. rewrite !run_cons. cbn [run fst].
    pose proof (press_buffer st k1 H1) as B1. cbn zeta in B1.
    destruct B1 as [_ [P1 [_ [_ [T1 [M1 _]]]]]].
    pose proof (press_buffer _ k2 H2) as B2. cbn zeta in B2.
    destruct B2 as [_ [_ [_ [_ [T2 _]]]]].
    rewrite T2. apply Z.eqb_neq in Hc2. rewrite Hc2.
    apply typedAfter_fresh.
    rewrite T1, M1.
    destruct (charCode (keyEvent k1) =? ENTER_ASCII_CODE_);
      [left; reflexivity | right].
    cbn. apply Z.ltb_lt. exact Hgap.
  - intros st ka kb kc kd ke Hpl Hchars [Ha [Hb [Hc [Hd [He _]]]]] Hgap.
    cbn in Hchars. injection Hchars as Ca Cb Cc Cd Ce.
    pose proof (press_buffer st ka Ha) as Ba. cbn zeta in Ba.
    destruct Ba as [_ [Pa _]].
    pose proof (press_buffer _ kb Hb) as Bb. cbn zeta in Bb.
    destruct Bb as [_ [Pb _]].
    pose proof (press_buffer _ kc Hc) as Bc. cbn zeta in Bc.
    destruct Bc as [_ [Pc [_ [_ [_ [Mc _]]]]]].
    pose proof (press_buffer _ kd Hd) as Bd. cbn zeta in Bd.
    destruct Bd as [_ [Pd [_ [_ [Td [Md Kd]]]]]].
    pose proof (press_buffer _ ke He) as Be. cbn zeta in Be.
    destruct Be as [_ [Pe [_ [_ [Te [_ Ke]]]]]].
    rewrite Pa, Hpl in Pb. rewrite Pb in Pc. rewrite Pc in Pd, Td.
    rewrite Pd in Pe, Te. rewrite Hpl in Pa.
    assert (Ec : (charCode (keyEvent kc) =? ENTER_ASCII_CODE_) = false)
      by (rewrite Cc; reflexivity).
    assert (Ed : (charCode (keyEvent kd) =? ENTER_ASCII_CODE_) = false)
      by (rewrite Cd; reflexivity).
    assert (Ee : (charCode (keyEvent ke) =? ENTER_ASCII_CODE_) = false)
      by (rewrite Ce; reflexivity).
    rewrite Ec in Mc. rewrite Ed in Td, Md, Kd. rewrite Ee in Te, Ke.
    rewrite typedAfter_fresh in Td
      by (right; rewrite Mc; cbn; apply Z.ltb_lt; exact Hgap).
    unfold presses. cbn [map]. rewrite !run_cons. cbn [run fst snd].
    rewrite app_nil_r, !candidates_app, !in_app_iff.
    intros [H | [H | [H | [H | H]]]].
    + apply candidate_last in H; [| exact Ha | rewrite Hpl; discriminate].
      rewrite Ca in H. discriminate H.
    + apply candidate_last in H; [| exact Hb | rewrite Pa; discriminate].
      rewrite Cb in H. discriminate H.
    + apply candidate_last in H; [| exact Hc | rewrite Pb; discriminate].
      rewrite Cc in H. discriminate H.
    + rewrite Kd, candidates_checkEffects, Td, Pd, Cd in H. exact H.
    + rewrite Ke, candidates_checkEffects, Te, Pe, Td, Md, Cd, Ce in H.
      unfold typedAfter in H.
      destruct (elapsedMoreThan SECONDS_TO_CLEAR_ (keyNow ke)
                  (Some (keyNow kd))); exact H.
Qed.

(** ** Counting the digits of an OTP *)

Lemma acceptedRun_app (s : State) (a b : list Key) :
  acceptedRun page s (a ++ b) ->
  acceptedRun page s a /\
  acceptedRun page (fst (run page s (presses a))) b.
Proof.
  revert s. induction a as [| k a IH]; intros s H.
  - split; [exact I | exact H].
  - cbn [app acceptedRun] in H. destruct H as [Hk Hr].
    destruct (IH _ Hr) as [Ha Hb].
    split; [split; assumption |].
    unfold presses. cbn [map]. rewrite run_cons. cbn [fst]. exact Hb.
Qed.

Lemma press_tracker (st : State) (k : Key) :
  accepted st (keyEvent k) = true ->
  let s1 := set_lastKeypressTimeStamp_ (Some (timeStamp (keyEvent k))) st in
  let q := exec (when (otpMode_ s1)
                   (otpBlock page (keyEvent k) (keyOtpNow k))) s1 in
  let r := step page st (press k) in
  otpMode_ (fst r) = otpMode_ (fst q) /\
  otpCount_ (fst r) = otpCount_ (fst q) /\
  otpAlerts (snd r) = otpAlerts (snd q) /\
  (snd q <> [] -> hd_error (snd r) = hd_error (snd q)).
Proof.
  exact (handleKeypress_tracker st (keyEvent k) (keyOtpNow k) (keyNow k)).
Qed.

(** An accepted digit inside the window: the count goes up by one, and
    the count that reaches [otp_length_] sends one alert and disarms. *)
Lemma press_digit (st : State) (k : Key) :
  accepted st (keyEvent k) = true ->
  otpMode_ st = true ->
  digitKey (otpTime_ st) k ->
  let r := step page st (press k) in
  otpCount_ (fst r) = otpCount_ st + 1 /\
  otpTime_ (fst r) = otpTime_ st /\
  otpMode_ (fst r) = negb (otp_length_ page <=? otpCount_ st + 1) /\
  otpAlerts (snd r) =
    if otp_length_ page <=? otpCount_ st + 1 then 1%nat else 0%nat.
Proof.
  intros Hacc Hm [Hd Hw].
  pose proof (press_tracker st k Hacc) as T.
  pose proof (press_buffer st k Hacc) as B.
  cbn zeta in T, B |- *. destruct B as [_ [_ [_ [B _]]]].
  rewrite otpBlock_digit in T by assumption.
  destruct T as [T1 [T2 [T3 _]]].
  cbn [otpCount_ set_lastKeypressTimeStamp_] in T1, T2, T3.
  rewrite T1, T2, T3, B.
  destruct (otp_length_ page <=? otpCount_ st + 1); cbn; auto.
Qed.

Lemma digits_counted (ks : list Key) (s : State) :
  acceptedRun page s ks ->
  Forall (digitKey (otpTime_ s)) ks ->
  otpMode_ s = true ->
  otpCount_ s + Z.of_nat (List.length ks) < otp_length_ page ->
  let r := run page s (presses ks) in
  otpMode_ (fst r) = true /\
  otpCount_ (fst r) = otpCount_ s + Z.of_nat (List.length ks) /\
  otpTime_ (fst r) = otpTime_ s /\
  otpAlerts (snd r) = 0%nat.
Proof.
  revert s. induction ks as [| k ks IH]; intros s Hacc Hd Hm Hlt.
  - cbn. rewrite Z.add_0_r. auto.
  - cbn [acceptedRun] in Hacc. destruct Hacc as [Hk Hr].
    inversion Hd as [| k' ks' Hdk Hdr]; subst.
    pose proof (press_digit s k Hk Hm Hdk) as P. cbn zeta in P.
    destruct P as [P1 [P2 [P3 P4]]].
    cbn [List.length] in Hlt. rewrite Nat2Z.inj_succ in Hlt.
    assert (Hno : (otp_length_ page <=? otpCount_ s + 1) = false)
      by (apply Z.leb_gt; lia).
    rewrite Hno in P3, P4. cbn in P3.
    specialize (IH (fst (step page s (press k))) Hr).
    rewrite P2, P1 in IH.
    specialize (IH Hdr P3 ltac:(lia)). cbn zeta in IH.
    destruct IH as [I1 [I2 [I3 I4]]].
    cbn zeta. unfold presses. cbn [map]. rewrite run_cons.
    cbn [fst snd]. fold (presses ks).
    rewrite otpAlerts_app, P4, I4, I1, I2, I3.
    cbn [List.length]. rewrite Nat2Z.inj_succ.
    repeat split; try reflexivity. lia.
Qed.




(** ** The whitelist *)

(** C9. A page is whitelisted exactly when its domain ends with one of
    the whitelisted suffixes; equality is not required. With the list
    ["accounts.google.com"], the domain "login.accounts.google.com" is
    whitelisted and "accounts.google.com.evil.com" is not. *)
Theorem whitelist_is_suffix_match :
  (whitelistUrl_ page = true <->
   exists suffix p,
     In suffix (whitelist_top_domains_ page) /\
     urlDomain page = (p ++ suffix)%string) /\
  (whitelist_top_domains_ page = ["accounts.google.com"%string] ->
   (urlDomain page = "login.accounts.google.com"%string ->
    whitelistUrl_ page = true) /\
   (urlDomain page = "accounts.google.com.evil.com"%string ->
    whitelistUrl_ page = false)).
Proof.
  split.
  - unfold whitelistUrl_. rewrite existsb_exists. split.
    + intros [suffix [Hin He]]. apply endsWith_spec in He.
      destruct He as [p Hp]. exists suffix, p. auto.
    + intros [suffix [p [Hin Hp]]]. exists suffix. split; [exact Hin |].
      apply endsWith_spec. exists p. exact Hp.
  - intros Hl. unfold whitelistUrl_. rewrite Hl.
    split; intros ->; reflexivity.
Qed.

End ScriptFacts.

(** * The properties at concrete inputs *)

(** C1 as stated fails. With the array [[false; true]] the only watched
    length is 1; after "a" and "b" the monitor runs and the buffer holds
    both characters, one more than the largest watched length. *)
Lemma buffer_exceeds_max_watched_length :
  let st := fst (run examplePage initialState typingAB) in
  isRunning_ st = true /\
  maxLength (passwordLengths_ st) = 1%nat /\
  typedChars_ st = codes "ab" /\
  ~ (List.length (typedChars_ st) <= maxLength (passwordLengths_ st))%nat.
Proof.
  cbn zeta. repeat split; try reflexivity.
  vm_compute. intros H. repeat apply le_S_n in H. inversion H.
Qed.

Lemma buffer_bounded_by_array_length_witness :
  let st := fst (run examplePage initialState typingAB) in
  isRunning_ st = true /\
  (List.length (typedChars_ st) <= List.length (passwordLengths_ st))%nat /\
  (List.length (typedChars_ st) <= S (maxLength (passwordLengths_ st)))%nat.
Proof.
  cbn zeta. split; [reflexivity |].
  destruct (buffer_bounded_by_array_length examplePage typingAB eq_refl)
    as [H1 H2].
  split; [exact H1 | apply H2; reflexivity].
Defined.

Lemma candidates_for_watched_lengths_witness :
  accepted typedXX123 (keyEvent key4) = true /\
  charCode (keyEvent key4) <> ENTER_ASCII_CODE_ /\
  candidates (snd (step examplePage typedXX123 (press key4))) =
    [codes "1234"; codes "xx1234"].
Proof.
  assert (Ha : accepted typedXX123 (keyEvent key4) = true) by reflexivity.
  assert (Hc : charCode (keyEvent key4) <> ENTER_ASCII_CODE_)
    by (vm_compute; discriminate).
  split; [exact Ha |]. split; [exact Hc |].
  destruct (candidates_for_watched_lengths examplePage typedXX123
              (keyEvent key4) (keyOtpNow key4) (keyNow key4) Ha Hc)
    as [_ [_ [_ H]]].
  apply H; reflexivity.
Defined.

Lemma pause_restarts_buffer_witness :
  typedChars_ (fst (run examplePage (started lengths5)
                      (presses [typedAt 99 3000; typedAt 100 14000]))) =
    codes "d" /\
  ~ In (codes "abcde")
       (candidates (snd (run examplePage (started lengths5)
                           (presses (keysABC ++ keysDE))))).
Proof.
  destruct (pause_restarts_buffer examplePage) as [H1 H2]. split.
  - apply (H1 (started lengths5) (typedAt 99 3000) (typedAt 100 14000)).
    + vm_compute. auto.
    + vm_compute. reflexivity.
    + vm_compute. discriminate.
  - apply (H2 (started lengths5) (typedAt 97 1000) (typedAt 98 2000)
              (typedAt 99 3000) (typedAt 100 14000) (typedAt 101 15000)).
    + reflexivity.
    + reflexivity.
    + vm_compute. auto 10.
    + vm_compute. reflexivity.
Defined.

Lemma invalid_event_is_dropped_witness :
  lastKeypressTimeStamp_ typedXX123 = Some 5 /\
  exec (handleKeypress_ examplePage (keyEvent (typedAt 52 5)) 6 6) typedXX123 =
    (typedXX123, []).
Proof.
  split; [reflexivity |].
  apply invalid_event_is_dropped. right. exists 5.
  split; [reflexivity | vm_compute; discriminate].
Defined.



Lemma nondigit_at_start_of_otp_witness :
  otpMode_ armedAtZero = true /\
  otpCount_ armedAtZero = 0 /\
  otpMode_ (fst (step examplePage armedAtZero (press (typedAt 97 1000)))) =
    false /\
  otpMode_ (fst (step examplePage armedAtZero (press (typedAt 9 1000)))) =
    true.
Proof.
  assert (Hd : forall c, c = 97 \/ c = 9 -> ~ (0x30 <= c <= 0x39))
    by (intros c [-> | ->]; lia).
  split; [reflexivity |]. split; [reflexivity |]. split.
  - destruct (nondigit_at_start_of_otp examplePage armedAtZero
                (keyEvent (typedAt 97 1000)) 1000 1000
                eq_refl eq_refl eq_refl eq_refl (Hd 97 (or_introl eq_refl)))
      as [H _].
    apply H. reflexivity.
  - destruct (nondigit_at_start_of_otp examplePage armedAtZero
                (keyEvent (typedAt 9 1000)) 1000 1000
                eq_refl eq_refl eq_refl eq_refl (Hd 9 (or_intror eq_refl)))
      as [_ H].
    apply H; [discriminate | reflexivity].
Defined.



Lemma whitelist_is_suffix_match_witness :
  whitelistUrl_ (consumerPage "http://login.accounts.google.com/"
                              "login.accounts.google.com") = true /\
  whitelistUrl_ (consumerPage "http://accounts.google.com.evil.com/"
                              "accounts.google.com.evil.com") = false.
Proof.
  split.
  - apply (whitelist_is_suffix_match
             (consumerPage "http://login.accounts.google.com/"
                           "login.accounts.google.com"));
      reflexivity.
  - apply (whitelist_is_suffix_match
             (consumerPage "http://accounts.google.com.evil.com/"
                           "accounts.google.com.evil.com"));
      reflexivity.
Defined.

Lemma first_keypress_passes_timestamp_guard_witness :
  let evt := {| charCode := 97; timeStamp := -5; view := true |} in
  notAfter (timeStamp evt) (lastKeypressTimeStamp_ (started lengths46)) =
    false /\
  lastKeypressTimeStamp_
    (fst (exec (handleKeypress_ examplePage evt 1 1) (started lengths46))) =
    Some (-5).
Proof.
  cbn zeta.
  destruct (first_keypress_passes_timestamp_guard examplePage
              [Message (watch lengths46)]
              {| charCode := 97; timeStamp := -5; view := true |} 1 1 eq_refl)
    as [_ [H1 H2]].
  split; [exact H1 |].
  destruct (H2 eq_refl eq_refl) as [_ [H3 _]]. exact H3.
Defined.

(** * Further properties of the script *)

(** ** Last characters *)

Lemma lastChars_all (n : nat) (s : jsString) :
  (List.length s <= n)%nat -> lastChars n s = s.
Proof.
  intros Hle. unfold lastChars. destruct (Nat.eqb n 0); [reflexivity |].
  replace (List.length s - n)%nat with 0%nat by lia. reflexivity.
Qed.

Lemma lastChars_exact_length (n : nat) (s : jsString) :
  (1 <= n <= List.length s)%nat -> List.length (lastChars n s) = n.
Proof.
  intros [H1 H2]. unfold lastChars.
  destruct (Nat.eqb_spec n 0); [lia |]. rewrite length_skipn. lia.
Qed.

Lemma lastChars_app_long (n : nat) (p z : jsString) :
  (1 <= n <= List.length z)%nat -> lastChars n (p ++ z) = lastChars n z.
Proof.
  intros [H1 H2]. unfold lastChars.
  destruct (Nat.eqb_spec n 0); [lia |].
  rewrite skipn_app, length_app.
  rewrite (skipn_all2 p) by lia. cbn [app]. f_equal. lia.
Qed.

Lemma lastChars_app_trim (n : nat) (x y : jsString) :
  (1 <= n)%nat -> lastChars n (lastChars n x ++ y) = lastChars n (x ++ y).
Proof.
  intros Hn.
  destruct (Nat.le_gt_cases (List.length x) n) as [Hle | Hgt].
  - rewrite (lastChars_all n x) by exact Hle. reflexivity.
  - destruct (lastChars_suffix n x) as [p Hp].
    rewrite Hp at 2. rewrite <- app_assoc.
    symmetry. apply lastChars_app_long.
    rewrite length_app, lastChars_exact_length by lia. lia.
Qed.

Lemma lastChars_twice (n m : nat) (s : jsString) :
  (1 <= n <= m)%nat -> lastChars n (lastChars m s) = lastChars n s.
Proof.
  intros [H1 H2].
  destruct (Nat.le_gt_cases (List.length s) m) as [Hle | Hgt].
  - rewrite (lastChars_all m s) by exact Hle. reflexivity.
  - destruct (lastChars_suffix m s) as [p Hp].
    rewrite Hp at 2. symmetry. apply lastChars_app_long.
    rewrite lastChars_exact_length by lia. lia.
Qed.

Lemma lastChars_app_exact (b w : jsString) :
  w <> [] -> lastChars (List.length w) (b ++ w) = w.
Proof.
  intros Hw. unfold lastChars.
  destruct (Nat.eqb_spec (List.length w) 0) as [E | E].
  - destruct w; [contradiction | discriminate].
  - rewrite skipn_app, length_app.
    rewrite (skipn_all2 b) by lia. cbn [app].
    replace (List.length b + List.length w - List.length w - List.length b)%nat
      with 0%nat by lia. reflexivity.
Qed.

Lemma typedAfter_steady (pl : list bool) (typed : jsString)
    (typedTime : option Z) (c now : Z) :
  pl <> [] ->
  elapsedMoreThan SECONDS_TO_CLEAR_ now typedTime = false ->
  typedAfter pl typed typedTime c now =
  lastChars (List.length pl) (typed ++ fromCharCode c).
Proof.
  intros Hne He. unfold typedAfter, slice_neg. rewrite He.
  destruct (Nat.ltb_spec (List.length pl)
              (List.length (typed ++ fromCharCode c))) as [Hlt | Hge].
  - reflexivity.
  - symmetry. apply lastChars_all. exact Hge.
Qed.

Lemma typedAfter_shape (pl : list bool) (typed : jsString)
    (typedTime : option Z) (c now : Z) :
  exists dropped kept,
    typed = dropped ++ kept /\
    typedAfter pl typed typedTime c now = kept ++ fromCharCode c.
Proof.
  unfold typedAfter, slice_neg.
  set (held := if elapsedMoreThan _ _ _ then [] else typed).
  assert (Hk : exists d, typed = d ++ held).
  { unfold held. destruct (elapsedMoreThan _ _ _).
    - exists typed. symmetry. apply app_nil_r.
    - exists []. reflexivity. }
  destruct Hk as [d Hd].
  destruct (Nat.ltb _ _).
  - unfold lastChars. destruct (Nat.eqb_spec (List.length pl) 0) as [E | E].
    + exists d, held. auto.
    + exists (d ++ firstn (List.length (held ++ fromCharCode c)
                           - List.length pl) held),
             (skipn (List.length (held ++ fromCharCode c)
                     - List.length pl) held).
      split.
      * rewrite <- app_assoc, firstn_skipn. exact Hd.
      * rewrite skipn_app.
        replace (List.length (held ++ fromCharCode c) - List.length pl
                 - List.length held)%nat with 0%nat
          by (rewrite length_app; cbn; lia).
        reflexivity.
  - exists d, held. auto.
Qed.

Section MoreScriptFacts.

Variable page : Page.

(** ** The buffer under Enter and under trimming *)

(** X1. An accepted Enter empties the buffer whatever it held, sends no
    candidate, and leaves the time of the last typed character and the
    watched lengths as they were. *)
Theorem enter_empties_buffer
    (st : State) (evt : Event) (otpNow now : Z) :
  accepted st evt = true ->
  charCode evt = ENTER_ASCII_CODE_ ->
  let r := exec (handleKeypress_ page evt otpNow now) st in
  typedChars_ (fst r) = [] /\
  candidates (snd r) = [] /\
  typedTime_ (fst r) = typedTime_ st /\
  passwordLengths_ (fst r) = passwordLengths_ st.
Proof.
  intros Hacc Hc.
  pose proof (handleKeypress_buffer page st evt otpNow now Hacc) as B.
  cbn zeta in B |- *. destruct B as [_ [Bp [_ [_ [Bt [Bm Bc]]]]]].
  apply Z.eqb_eq in Hc. rewrite Hc in Bt, Bm, Bc. auto.
Qed.

(** X2. After an accepted character other than Enter the buffer is a
    suffix of the old buffer followed by the new code unit: what the
    pause reset and the trim drop is taken from the front, and the
    character just typed is always kept. *)
Theorem buffer_drops_oldest
    (st : State) (evt : Event) (otpNow now : Z) :
  accepted st evt = true ->
  charCode evt <> ENTER_ASCII_CODE_ ->
  let r := exec (handleKeypress_ page evt otpNow now) st in
  exists dropped kept,
    typedChars_ st = dropped ++ kept /\
    typedChars_ (fst r) = kept ++ fromCharCode (charCode evt).
Proof.
  intros Hacc Hc.
  pose proof (handleKeypress_buffer page st evt otpNow now Hacc) as B.
  cbn zeta in B |- *. destruct B as [_ [_ [_ [_ [Bt _]]]]].
  apply Z.eqb_neq in Hc. rewrite Hc in Bt. rewrite Bt.
  apply typedAfter_shape.
Qed.

(** X3. Every candidate an accepted event sends is a non-empty suffix
    of the buffer, and its length is a watched length: the flag at that
    offset of [passwordLengths_] is [true]. *)
Theorem candidates_have_watched_lengths
    (st : State) (evt : Event) (otpNow now : Z) (c : jsString) :
  accepted st evt = true ->
  let r := exec (handleKeypress_ page evt otpNow now) st in
  In c (candidates (snd r)) ->
  c <> [] /\
  nth (List.length c) (passwordLengths_ st) false = true /\
  exists p, typedChars_ (fst r) = p ++ c.
Proof.
  intros Hacc r Hin. subst r.
  pose proof (handleKeypress_buffer page st evt otpNow now Hacc) as B.
  cbn zeta in B. destruct B as [_ [Bp [_ [_ [_ [_ Bc]]]]]].
  rewrite Bc in Hin.
  destruct (charCode evt =? ENTER_ASCII_CODE_); [contradiction |].
  rewrite candidates_checkEffects, Bp in Hin.
  apply in_map_iff in Hin. destruct Hin as [i [Hc Hi]].
  apply filter_In in Hi. destruct Hi as [Hw Hle].
  apply watchedLengths_spec in Hw. destruct Hw as [H1 Hn].
  apply Nat.leb_le in Hle.
  assert (Hlen : List.length c = i)
    by (subst c; apply lastChars_exact_length; lia).
  split; [intros E; rewrite E in Hlen; simpl in Hlen; lia |].
  split; [rewrite Hlen; exact Hn |].
  subst c. apply lastChars_suffix.
Qed.

(** ** Typing bursts *)

Lemma run_presses_snoc (s : State) (ks : list Key) (k : Key) :
  run page s (presses (ks ++ [k])) =
  (fst (step page (fst (run page s (presses ks))) (press k)),
   snd (run page s (presses ks)) ++
   snd (step page (fst (run page s (presses ks))) (press k))).
Proof.
  revert s. induction ks as [| k0 ks IH]; intros s.
  - cbn [app presses map run fst snd].
    destruct (step page s (press k)) as [s1 o1]. cbn.
    rewrite app_nil_r. reflexivity.
  - cbn [app]. unfold presses. cbn [map]. fold (presses (ks ++ [k])).
    fold (presses ks). rewrite !run_cons, IH. cbn [fst snd].
    rewrite app_assoc. reflexivity.
Qed.

Lemma steadyRun_app (s : State) (a b : list Key) :
  steadyRun page s (a ++ b) ->
  steadyRun page s a /\
  steadyRun page (fst (run page s (presses a))) b.
Proof.
  revert s. induction a as [| k a IH]; intros s H.
  - split; [exact I | exact H].
  - cbn [app steadyRun] in H. destruct H as [H1 [H2 [H3 Hr]]].
    destruct (IH _ Hr) as [Ha Hb].
    split; [cbn [steadyRun]; auto |].
    unfold presses. cbn [map]. rewrite run_cons. cbn [fst]. exact Hb.
Qed.

Lemma steady_step (s : State) (k : Key) :
  passwordLengths_ s <> [] ->
  steadyRun page s [k] ->
  let s1 := fst (step page s (press k)) in
  passwordLengths_ s1 = passwordLengths_ s /\
  typedChars_ s1 =
    lastChars (List.length (passwordLengths_ s))
              (typedChars_ s ++ fromCharCode (charCode (keyEvent k))).
Proof.
  intros Hne [Hacc [Hc [He _]]].
  pose proof (press_buffer page s k Hacc) as B. cbn zeta in B |- *.
  destruct B as [_ [Bp [_ [_ [Bt _]]]]].
  apply Z.eqb_neq in Hc. rewrite Hc in Bt.
  split; [exact Bp |]. rewrite Bt. apply typedAfter_steady; assumption.
Qed.

Lemma steady_buffer_bounded (ks : list Key) (s : State) :
  passwordLengths_ s <> [] ->
  (List.length (typedChars_ s) <= List.length (passwordLengths_ s))%nat ->
  steadyRun page s ks ->
  let s' := fst (run page s (presses ks)) in
  passwordLengths_ s' = passwordLengths_ s /\
  typedChars_ s' =
    lastChars (List.length (passwordLengths_ s))
              (typedChars_ s ++ typedCodes ks).
Proof.
  revert s. induction ks as [| k ks IH]; intros s Hne Hlen Hrun.
  - cbn. rewrite app_nil_r, lastChars_all by exact Hlen. auto.
  - cbn [steadyRun] in Hrun. destruct Hrun as [H1 [H2 [H3 Hr]]].
    destruct (steady_step s k Hne) as [Sp St];
      [cbn [steadyRun]; auto |].
    cbn zeta. unfold presses. cbn [map]. rewrite run_cons. cbn [fst].
    fold (presses ks).
    assert (Hpl : (1 <= List.length (passwordLengths_ s))%nat)
      by (destruct (passwordLengths_ s); [contradiction | simpl; lia]).
    destruct (IH (fst (step page s (press k)))) as [Ip It].
    + rewrite Sp. exact Hne.
    + rewrite Sp, St. apply lastChars_length. lia.
    + exact Hr.
    + rewrite Ip, It, Sp, St. split; [reflexivity |].
      cbn [typedCodes flat_map]. fold (typedCodes ks).
      rewrite lastChars_app_trim by exact Hpl.
      rewrite <- app_assoc. reflexivity.
Qed.

Lemma steady_buffer (st : State) (ks : list Key) :
  passwordLengths_ st <> [] ->
  ks <> [] ->
  steadyRun page st ks ->
  typedChars_ (fst (run page st (presses ks))) =
  lastChars (List.length (passwordLengths_ st))
            (typedChars_ st ++ typedCodes ks).
Proof.
  intros Hne Hks Hrun. destruct ks as [| k ks]; [contradiction |].
  cbn [steadyRun] in Hrun. destruct Hrun as [H1 [H2 [H3 Hr]]].
  destruct (steady_step st k Hne) as [Sp St]; [cbn [steadyRun]; auto |].
  assert (Hpl : (1 <= List.length (passwordLengths_ st))%nat)
    by (destruct (passwordLengths_ st); [contradiction | simpl; lia]).
  unfold presses. cbn [map]. rewrite run_cons. cbn [fst].
  fold (presses ks).
  destruct (steady_buffer_bounded ks (fst (step page st (press k))))
    as [_ It].
  - rewrite Sp. exact Hne.
  - rewrite Sp, St. apply lastChars_length. lia.
  - exact Hr.
  - rewrite It, Sp, St. cbn [typedCodes flat_map]. fold (typedCodes ks).
    rewrite lastChars_app_trim by exact Hpl.
    rewrite <- app_assoc. reflexivity.
Qed.

(** X4. The buffer is a rolling window. After a non-empty burst typed
    without Enter and without a pause, the buffer holds the last
    [passwordLengths_.length] code units of what the buffer held before
    followed by what was typed. *)
Theorem buffer_is_rolling_window (st : State) (ks : list Key) :
  passwordLengths_ st <> [] ->
  ks <> [] ->
  steadyRun page st ks ->
  typedChars_ (fst (run page st (presses ks))) =
  lastChars (List.length (passwordLengths_ st))
            (typedChars_ st ++ typedCodes ks).
Proof. apply steady_buffer. Qed.

Lemma typedCodes_length (ks : list Key) :
  List.length (typedCodes ks) = List.length ks.
Proof.
  induction ks as [| k ks IH]; [reflexivity |].
  cbn [typedCodes flat_map]. fold (typedCodes ks).
  rewrite length_app, IH. reflexivity.
Qed.

(** X5. A typed password of a watched length is always submitted. When
    a burst typed without Enter and without a pause has a watched
    length, its last keypress sends the whole burst as a candidate,
    whatever the buffer held before. *)
Theorem watched_length_burst_is_checked
    (st : State) (ks : list Key) (k : Key) :
  steadyRun page st (ks ++ [k]) ->
  nth (List.length (ks ++ [k])) (passwordLengths_ st) false = true ->
  In (typedCodes (ks ++ [k]))
     (candidates
        (snd (step page (fst (run page st (presses ks))) (press k)))).
Proof.
  intros Hrun Hw.
  set (w := typedCodes (ks ++ [k])).
  set (n := List.length (ks ++ [k])) in *.
  assert (Hwn : List.length w = n) by apply typedCodes_length.
  assert (Hn1 : (1 <= n)%nat) by (unfold n; rewrite length_app; cbn; lia).
  assert (HnL : (n < List.length (passwordLengths_ st))%nat).
  { destruct (Nat.lt_ge_cases n (List.length (passwordLengths_ st)));
      [assumption |].
    rewrite nth_overflow in Hw by assumption. discriminate. }
  assert (Hne : passwordLengths_ st <> [])
    by (destruct (passwordLengths_ st); [simpl in HnL; lia | discriminate]).
  pose proof (steady_buffer st (ks ++ [k]) Hne) as W.
  specialize (W ltac:(destruct ks; discriminate) Hrun).
  rewrite run_presses_snoc in W. cbn [fst] in W. fold w in W.
  destruct (steadyRun_app st ks [k] Hrun) as [Hks [Hk [Hc _]]].
  assert (Hp : passwordLengths_ (fst (run page st (presses ks))) =
               passwordLengths_ st).
  { destruct ks as [| k0 ks0]; [reflexivity |].
    clear W. revert Hks. generalize (k0 :: ks0). intros l Hl.
    clear - Hl. revert st Hl.
    induction l as [| x l IH]; intros st Hl; [reflexivity |].
    cbn [steadyRun] in Hl. destruct Hl as [H1 [_ [_ Hr]]].
    unfold presses. cbn [map]. rewrite run_cons. cbn [fst].
    fold (presses l). rewrite (IH _ Hr).
    pose proof (press_buffer page st x H1) as B. cbn zeta in B.
    destruct B as [_ [Bp _]]. exact Bp. }
  pose proof (press_buffer page _ k Hk) as B. cbn zeta in B.
  destruct B as [_ [Bp [_ [_ [_ [_ Bc]]]]]].
  apply Z.eqb_neq in Hc. rewrite Hc in Bc.
  rewrite Bc, candidates_checkEffects, Bp, Hp, W.
  apply in_map_iff. exists n. split.
  - rewrite lastChars_twice by lia.
    rewrite <- Hwn. apply lastChars_app_exact.
    intros E. rewrite E in Hwn. simpl in Hwn. lia.
  - apply filter_In. split.
    + apply watchedLengths_spec. split; [exact Hn1 | exact Hw].
    + apply Nat.leb_le.
      destruct (Nat.le_gt_cases
                  (List.length (typedChars_ st ++ w))
                  (List.length (passwordLengths_ st))) as [Hle | Hgt].
      * rewrite lastChars_all by exact Hle. rewrite length_app. lia.
      * rewrite lastChars_exact_length by lia. lia.
Qed.

(** ** The OTP tracker under any keypress *)

Lemma otpBlock_bounds (s : State) (evt : Event) (otpNow : Z) :
  let r := exec (when (otpMode_ s) (otpBlock page evt otpNow)) s in
  otpCount_ s <= otpCount_ (fst r) <= otpCount_ s + 1 /\
  (otpMode_ s = false ->
   otpMode_ (fst r) = false /\ otpCount_ (fst r) = otpCount_ s) /\
  (otpAlerts (snd r) <= 1)%nat /\
  (otpAlerts (snd r) = 1%nat ->
   otpMode_ s = true /\ otpMode_ (fst r) = false /\
   otp_length_ page <= otpCount_ (fst r)) /\
  (otpAlerts (snd r) = 0%nat -> otpMode_ s = true ->
   otpCount_ (fst r) < otp_length_ page) /\
  (otpMode_ (fst r) = true -> otpCount_ (fst r) < otp_length_ page).
Proof.
  unfold_otp. split_ifs; cbn in *; leb_props;
    repeat split; intros; try lia; try congruence; try discriminate.
Qed.

(** X6. Whatever keypress event arrives, the digit count never goes
    down and goes up by at most one, the arming time is untouched, and
    a disarmed tracker stays disarmed with its count unchanged: only a
    verified match or a message arms the tracker. *)
Theorem keypress_moves_count_by_at_most_one
    (st : State) (evt : Event) (otpNow now : Z) :
  let r := exec (handleKeypress_ page evt otpNow now) st in
  otpCount_ st <= otpCount_ (fst r) <= otpCount_ st + 1 /\
  otpTime_ (fst r) = otpTime_ st /\
  (otpMode_ st = false ->
   otpMode_ (fst r) = false /\ otpCount_ (fst r) = otpCount_ st /\
   otpAlerts (snd r) = 0%nat).
Proof.
  cbn zeta. destruct (accepted st evt) eqn:Hacc.
  - pose proof (handleKeypress_tracker page st evt otpNow now Hacc) as T.
    pose proof (handleKeypress_buffer page st evt otpNow now Hacc) as B.
    cbn zeta in T, B. destruct T as [T1 [T2 [T3 _]]].
    destruct B as [_ [_ [_ [B _]]]].
    pose proof (otpBlock_bounds
                  (set_lastKeypressTimeStamp_ (Some (timeStamp evt)) st)
                  evt otpNow) as Q.
    cbn zeta in Q. destruct Q as [Q1 [Q2 [Q3 [Q4 _]]]].
    cbn [otpCount_ otpMode_ set_lastKeypressTimeStamp_] in Q1, Q2, Q4.
    rewrite T1, T2, T3. split; [exact Q1 |]. split; [exact B |].
    intros Hm. destruct (Q2 Hm) as [Q5 Q6].
    split; [exact Q5 |]. split; [exact Q6 |].
    match goal with
    | |- ?a = 0%nat =>
        destruct (Nat.eq_dec a 1) as [E1 | E1];
          [destruct (Q4 E1) as [Q7 _]; congruence | lia]
    end.
  - rewrite handleKeypress_rejected by exact Hacc. cbn.
    split; [lia |]. auto.
Qed.

(** X7. A keypress sends at most one OTP alert, and only from an armed
    tracker; after a keypress that sent one the tracker is disarmed and
    the digit count has reached [otp_length_]. After an accepted
    keypress that leaves the tracker armed the count is still below
    [otp_length_]. *)
Theorem alert_disarms_tracker
    (st : State) (evt : Event) (otpNow now : Z) :
  let r := exec (handleKeypress_ page evt otpNow now) st in
  (otpAlerts (snd r) <= 1)%nat /\
  (otpAlerts (snd r) = 1%nat ->
   otpMode_ st = true /\ otpMode_ (fst r) = false /\
   otp_length_ page <= otpCount_ (fst r)) /\
  (accepted st evt = true -> otpMode_ (fst r) = true ->
   otpCount_ (fst r) < otp_length_ page).
Proof.
  cbn zeta. destruct (accepted st evt) eqn:Hacc.
  - pose proof (handleKeypress_tracker page st evt otpNow now Hacc) as T.
    cbn zeta in T. destruct T as [T1 [T2 [T3 _]]].
    pose proof (otpBlock_bounds
                  (set_lastKeypressTimeStamp_ (Some (timeStamp evt)) st)
                  evt otpNow) as Q.
    cbn zeta in Q. destruct Q as [_ [_ [Q3 [Q4 [_ Q6]]]]].
    cbn [otpCount_ otpMode_ set_lastKeypressTimeStamp_] in Q4.
    rewrite T1, T2, T3. auto.
  - rewrite handleKeypress_rejected by exact Hacc. cbn.
    split; [lia |]. split; intros; discriminate.
Qed.

(** X8. For any [otp_length_]: when the tracker is armed with a count
    below [otp_length_] and exactly the missing number of digits is
    typed inside the window, the whole burst sends exactly one alert,
    sent by its last digit, and ends with the tracker disarmed and the
    count equal to [otp_length_]. *)
Theorem missing_digits_raise_one_alert
    (st : State) (ks : list Key) (k : Key) :
  otpMode_ st = true ->
  acceptedRun page st (ks ++ [k]) ->
  Forall (digitKey (otpTime_ st)) (ks ++ [k]) ->
  otpCount_ st + Z.of_nat (List.length (ks ++ [k])) = otp_length_ page ->
  let r := run page st (presses (ks ++ [k])) in
  otpAlerts (snd (run page st (presses ks))) = 0%nat /\
  otpAlerts (snd r) = 1%nat /\
  otpMode_ (fst r) = false /\
  otpCount_ (fst r) = otp_length_ page.
Proof.
  intros Hm Hacc Hd Hlen.
  apply acceptedRun_app in Hacc. destruct Hacc as [Ha [Hk _]].
  apply Forall_app in Hd. destruct Hd as [Hd Hdk].
  inversion Hdk as [| k' l' Hdk' _]; subst.
  rewrite length_app in Hlen. cbn [List.length] in Hlen.
  pose proof (digits_counted page ks st Ha Hd Hm ltac:(lia)) as D.
  cbn zeta in D. destruct D as [D1 [D2 [D3 D4]]].
  rewrite <- D3 in Hdk'.
  pose proof (press_digit page _ k Hk D1 Hdk') as P. cbn zeta in P.
  destruct P as [P1 [_ [P3 P4]]].
  assert (Hy : (otp_length_ page <=?
                otpCount_ (fst (run page st (presses ks))) + 1) = true)
    by (apply Z.leb_le; lia).
  rewrite Hy in P3, P4.
  cbn zeta. rewrite run_presses_snoc. cbn [fst snd].
  rewrite otpAlerts_app, D4, P4, P3, P1, D2.
  repeat split; try reflexivity. lia.
Qed.

Lemma otpBlock_nonprintable_late (s : State) (evt : Event) (otpNow : Z) :
  otpMode_ s = true ->
  elapsedMoreThan SECONDS_TO_CLEAR_OTP_ otpNow (otpTime_ s) = false ->
  charCode evt <= 0x20 ->
  0 < otpCount_ s ->
  exec (when (otpMode_ s) (otpBlock page evt otpNow)) s =
  (set_otpMode_ false s,
   SendClearOtpMode ::
   if otp_length_ page <=? otpCount_ s
   then [SendOtpAlert (url_ page) (referrer page) (looksLikeGooglePage_ page);
         SendClearOtpMode]
   else []).
Proof.
  intros Hm He Hnp Hc. unfold_otp. rewrite Hm, He.
  assert (Hd : (0x30 <=? charCode evt) && (charCode evt <=? 0x39) = false).
  { apply andb_false_iff. left. apply Z.leb_gt. lia. }
  rewrite Hd.
  assert (Hp : (0x20 <? charCode evt) || (0 <? otpCount_ s) = true).
  { apply orb_true_iff. right. apply Z.ltb_lt. exact Hc. }
  rewrite Hp. cbn.
  destruct (otp_length_ page <=? otpCount_ s); reflexivity.
Qed.

Lemma otpBlock_full (s : State) (evt : Event) (otpNow : Z) :
  otpMode_ s = true ->
  otp_length_ page <= otpCount_ s ->
  let r := exec (when (otpMode_ s) (otpBlock page evt otpNow)) s in
  otpAlerts (snd r) = 1%nat /\ otpMode_ (fst r) = false.
Proof.
  intros Hm Hfull. unfold_otp. rewrite Hm.
  split_ifs; cbn in *; leb_props; split; try reflexivity; lia.
Qed.

(** X9. Once a digit has been counted, a character code of at most
    0x20 typed inside the window disarms the tracker: such keys are
    tolerated only before the first digit. *)
Theorem nonprintable_after_digit_disarms
    (st : State) (evt : Event) (otpNow now : Z) :
  accepted st evt = true ->
  otpMode_ st = true ->
  elapsedMoreThan SECONDS_TO_CLEAR_OTP_ otpNow (otpTime_ st) = false ->
  0 < otpCount_ st ->
  charCode evt <= 0x20 ->
  let r := exec (handleKeypress_ page evt otpNow now) st in
  otpMode_ (fst r) = false /\ otpCount_ (fst r) = otpCount_ st.
Proof.
  intros Hacc Hm He Hc Hnp.
  pose proof (handleKeypress_tracker page st evt otpNow now Hacc) as T.
  cbn zeta in T |- *. destruct T as [T1 [T2 _]]. rewrite T1, T2.
  rewrite otpBlock_nonprintable_late by assumption. auto.
Qed.

(** X10. The alert test runs on every accepted keypress that finds the
    tracker armed, also when the window has elapsed or the key is no
    digit: if the count already is [otp_length_] or more (a message
    arms the tracker without resetting the count), the keypress sends
    exactly one alert and disarms the tracker, whatever the key. *)
Theorem armed_with_full_count_alerts_at_once
    (st : State) (evt : Event) (otpNow now : Z) :
  accepted st evt = true ->
  otpMode_ st = true ->
  otp_length_ page <= otpCount_ st ->
  let r := exec (handleKeypress_ page evt otpNow now) st in
  otpAlerts (snd r) = 1%nat /\ otpMode_ (fst r) = false.
Proof.
  intros Hacc Hm Hfull.
  pose proof (handleKeypress_tracker page st evt otpNow now Hacc) as T.
  cbn zeta in T |- *. destruct T as [T1 [_ [T3 _]]]. rewrite T1, T3.
  apply otpBlock_full; assumption.
Qed.

End MoreScriptFacts.

Section LifecycleFacts.

Variable page : Page.

(** ** Messages of the background page *)

Lemma onMessage_running (st : State) (msg : StartMsg) :
  isRunning_ (fst (exec (onMessage page msg) st)) =
  negb (Nat.eqb (List.length (passwordLengths msg)) 0) &&
  negb (isSafeUrl page).
Proof.
  unfold_lifecycle. cbn.
  destruct (passwordLengths msg) as [| b pl]; cbn; [reflexivity |].
  destruct (otpMode msg); cbn; destruct (isSafeUrl page); reflexivity.
Qed.

Lemma message_otp_kept (st : State) (msg : StartMsg) :
  otpMode msg = false ->
  otpMode_ (fst (exec (onMessage page msg) st)) = otpMode_ st /\
  otpCount_ (fst (exec (onMessage page msg) st)) = otpCount_ st /\
  otpTime_ (fst (exec (onMessage page msg) st)) = otpTime_ st.
Proof.
  intros Hom. unfold_lifecycle. cbn. rewrite Hom.
  destruct (passwordLengths msg) as [| b pl]; cbn; [auto |].
  destruct (isSafeUrl page); cbn; auto.
Qed.

(** X11. A message restarts the monitor: the watched lengths become
    those of the message and nothing is sent; the monitor runs
    afterwards exactly when the array is not empty and the page is not
    a safe login URL, and then the buffer is empty; when it does not
    run the buffer is left as it was. The last accepted timestamp and
    the time of the last typed character survive the restart. *)
Theorem message_restarts_monitor (st : State) (msg : StartMsg) :
  let r := exec (onMessage page msg) st in
  snd r = [] /\
  passwordLengths_ (fst r) = passwordLengths msg /\
  isRunning_ (fst r) =
    negb (Nat.eqb (List.length (passwordLengths msg)) 0) &&
    negb (isSafeUrl page) /\
  (isRunning_ (fst r) = true -> typedChars_ (fst r) = []) /\
  (isRunning_ (fst r) = false -> typedChars_ (fst r) = typedChars_ st) /\
  lastKeypressTimeStamp_ (fst r) = lastKeypressTimeStamp_ st /\
  typedTime_ (fst r) = typedTime_ st.
Proof.
  unfold_lifecycle. cbn.
  destruct (passwordLengths msg) as [| b pl]; cbn;
    [repeat split; intros; try reflexivity; discriminate |].
  destruct (otpMode msg); cbn; destruct (isSafeUrl page); cbn;
    repeat split; intros; try reflexivity; discriminate.
Qed.

(** X12. A message never disarms the tracker and never touches the
    digit count. With a non-empty array and [otpMode] set it arms the
    tracker with the time it carries (also on a safe login URL, where
    the monitor does not start); otherwise the tracker is left as it
    was. *)
Theorem message_never_disarms (st : State) (msg : StartMsg) :
  let r := exec (onMessage page msg) st in
  otpCount_ (fst r) = otpCount_ st /\
  (otpMode_ st = true -> otpMode_ (fst r) = true) /\
  (passwordLengths msg <> [] -> otpMode msg = true ->
   otpMode_ (fst r) = true /\ otpTime_ (fst r) = otpTime msg) /\
  (passwordLengths msg = [] \/ otpMode msg = false ->
   otpMode_ (fst r) = otpMode_ st /\ otpTime_ (fst r) = otpTime_ st).
Proof.
  unfold_lifecycle. cbn.
  destruct (passwordLengths msg) as [| b pl]; cbn.
  - repeat split; intros; try reflexivity; try assumption; contradiction.
  - destruct (otpMode msg); cbn; destruct (isSafeUrl page); cbn;
      repeat split; intros; try reflexivity; try assumption;
      try discriminate;
      match goal with
      | H : _ \/ _ |- _ => destruct H; discriminate
      end.
Qed.

(** X13. The ordering guard outlives a restart. Once an event has been
    accepted, whatever messages and responses arrive afterwards (each
    message stops and restarts the monitor), an event whose timestamp
    is not after the accepted one is still dropped. *)
Theorem restart_keeps_timestamp_guard
    (st : State) (evt : Event) (otpNow now : Z) (ins : list Input)
    (evt2 : Event) (otpNow2 now2 : Z) :
  accepted st evt = true ->
  forallb (fun i => negb (isKeypress i)) ins = true ->
  timeStamp evt2 <= timeStamp evt ->
  let st1 := fst (run page
                    (fst (exec (handleKeypress_ page evt otpNow now) st))
                    ins) in
  exec (handleKeypress_ page evt2 otpNow2 now2) st1 = (st1, []).
Proof.
  intros Hacc Hins Hle st1.
  assert (Hl : lastKeypressTimeStamp_ st1 = Some (timeStamp evt)).
  { unfold st1. rewrite run_keeps_timestamp by exact Hins.
    pose proof (handleKeypress_buffer page st evt otpNow now Hacc) as B.
    cbn zeta in B. destruct B as [_ [_ [B _]]]. exact B. }
  apply handleKeypress_rejected. unfold accepted. rewrite Hl. cbn.
  apply Z.leb_le in Hle. rewrite Hle. apply andb_false_r.
Qed.

(** ** Safe login pages *)

Lemma step_safe (s : State) (i : Input) :
  isSafeUrl page = true ->
  isRunning_ s = false ->
  isRunning_ (fst (step page s i)) = false /\
  typedChars_ (fst (step page s i)) = typedChars_ s /\
  candidates (snd (step page s i)) = [] /\
  otpAlerts (snd (step page s i)) = 0%nat.
Proof.
  intros Hsafe Hs. destruct i as [msg | evt o n | r n].
  - unfold_lifecycle. cbn. rewrite Hsafe.
    destruct (passwordLengths msg); cbn; [auto |].
    destruct (otpMode msg); cbn; auto.
  - cbn [step].
    rewrite handleKeypress_rejected
      by (unfold accepted; rewrite Hs; reflexivity).
    cbn. auto.
  - unfold_lifecycle.
    destruct r; [destruct (negb (isEnterpriseUse_ page)) |]; cbn; auto.
Qed.

(** X14. On a page under the SSO URL or the Google login URL the
    monitor never runs, whatever messages, keypresses and responses
    arrive: no typed character is ever stored, no candidate is sent
    and no OTP alert is raised. *)
Theorem safe_page_is_never_monitored (ins : list Input) :
  isSafeUrl page = true ->
  let r := run page initialState ins in
  isRunning_ (fst r) = false /\
  typedChars_ (fst r) = [] /\
  candidates (snd r) = [] /\
  otpAlerts (snd r) = 0%nat.
Proof.
  intros Hsafe.
  assert (G : forall s,
             isRunning_ s = false ->
             isRunning_ (fst (run page s ins)) = false /\
             typedChars_ (fst (run page s ins)) = typedChars_ s /\
             candidates (snd (run page s ins)) = [] /\
             otpAlerts (snd (run page s ins)) = 0%nat).
  { induction ins as [| i l IH]; intros s Hs; [cbn; auto |].
    rewrite run_cons. cbn [fst snd].
    destruct (step_safe s i Hsafe Hs) as [S1 [S2 [S3 S4]]].
    destruct (IH _ S1) as [I1 [I2 [I3 I4]]].
    rewrite candidates_app, otpAlerts_app, S3, S4, I1, I2, I3, I4, S2.
    auto. }
  exact (G initialState eq_refl).
Qed.

(** ** Responses that arrive late *)

(** X23. The callback of a check does not look at [isRunning_]: a
    verified match that is answered after the monitor was stopped still
    arms the tracker, with a count of 0, and the monitor stays stopped.
    The tracker survives the next restart: on a page that is not a safe
    login URL, once a message without [otpMode] has restarted the
    monitor, the first accepted digit inside the window is counted. *)
Theorem response_after_stop_still_arms
    (st : State) (now : Z) (msg : StartMsg) (k : Key) :
  let s1 := fst (exec stop_ st) in
  let s2 := fst (step page s1 (Response true now)) in
  let s3 := fst (step page s2 (Message msg)) in
  (isRunning_ s2 = false /\ otpMode_ s2 = true /\ otpCount_ s2 = 0 /\
   otpTime_ s2 = Some now) /\
  (isSafeUrl page = false -> passwordLengths msg <> [] ->
   otpMode msg = false ->
   accepted s3 (keyEvent k) = true -> digitKey (Some now) k ->
   1 < otp_length_ page ->
   isRunning_ s3 = true /\
   otpMode_ (fst (step page s3 (press k))) = true /\
   otpCount_ (fst (step page s3 (press k))) = 1).
Proof.
  cbn zeta.
  assert (H2 : isRunning_ (fst (step page (fst (exec stop_ st))
                                  (Response true now))) = false /\
               otpMode_ (fst (step page (fst (exec stop_ st))
                                (Response true now))) = true /\
               otpCount_ (fst (step page (fst (exec stop_ st))
                                 (Response true now))) = 0 /\
               otpTime_ (fst (step page (fst (exec stop_ st))
                                (Response true now))) = Some now).
  { unfold_lifecycle. destruct (negb (isEnterpriseUse_ page)); cbn; auto. }
  split; [exact H2 |].
  destruct H2 as [_ [Hm [Hc Ht]]].
  set (s2 := fst (step page (fst (exec stop_ st)) (Response true now))) in *.
  intros Hsafe Hne Hom Hacc Hd Hlen.
  pose proof (onMessage_running s2 msg) as R.
  pose proof (message_otp_kept s2 msg Hom) as K.
  destruct K as [K1 [K2 K3]].
  change (exec (onMessage page msg) s2) with (step page s2 (Message msg))
    in R, K1, K2, K3.
  set (s3 := fst (step page s2 (Message msg))) in *.
  split.
  - rewrite R, Hsafe. destruct (passwordLengths msg);
      [contradiction | reflexivity].
  - rewrite <- Ht, <- K3 in Hd.
    assert (Hm3 : otpMode_ s3 = true) by (rewrite K1; exact Hm).
    pose proof (press_digit page s3 k Hacc Hm3 Hd) as P. cbn zeta in P.
    destruct P as [P1 [_ [P3 _]]].
    rewrite P1, P3, K2, Hc.
    assert (Hno : (otp_length_ page <=? 0 + 1) = false)
      by (apply Z.leb_gt; lia).
    rewrite Hno. auto.
Qed.

End LifecycleFacts.

(** ** Substrings of page strings *)

Lemma append_assoc (a b c : string) :
  ((a ++ b) ++ c = a ++ (b ++ c))%string.
Proof. induction a as [| x a IH]; cbn; [| rewrite IH]; reflexivity. Qed.

Lemma append_nil_r (a : string) : (a ++ "")%string = a.
Proof. induction a as [| x a IH]; cbn; [| rewrite IH]; reflexivity. Qed.

Lemma prefix_split (s h : string) :
  String.prefix s h = true -> exists b, h = (s ++ b)%string.
Proof.
  intros H. apply prefix_correct in H.
  destruct (Nat.le_gt_cases (String.length s) (String.length h)) as [Hle | Hgt].
  - exists (substring (String.length s) (String.length h - String.length s) h).
    rewrite <- H at 1. apply substring_split. exact Hle.
  - exfalso. clear - H Hgt. revert h H Hgt.
    induction s as [| a s IH]; intros h H Hgt; [cbn in Hgt; lia |].
    destruct h as [| c h]; [discriminate |].
    cbn in H, Hgt. injection H as _ H. apply (IH h H). lia.
Qed.

Lemma prefix_append (s b : string) : String.prefix s (s ++ b) = true.
Proof.
  apply prefix_correct.
  induction s as [| a s IH]; cbn; [destruct b; reflexivity |].
  rewrite IH. reflexivity.
Qed.

Lemma index_some_split (s h : string) (n m : nat) :
  String.index n s h = Some m -> exists a b, h = (a ++ s ++ b)%string.
Proof.
  revert n m. induction h as [| c h IH]; intros n m H.
  - destruct n; [| discriminate]. cbn in H.
    destruct s; [| discriminate]. exists ""%string, ""%string. reflexivity.
  - destruct n as [| n].
    + cbn [String.index] in H.
      destruct (String.prefix s (String c h)) eqn:P.
      * apply prefix_split in P. destruct P as [b Hb].
        exists ""%string, b. exact Hb.
      * destruct (String.index 0 s h) as [k |] eqn:E; [| discriminate].
        destruct (IH _ _ E) as [a [b Hab]].
        exists (String c a), b. cbn. rewrite <- Hab. reflexivity.
    + cbn [String.index] in H.
      destruct (String.index n s h) as [k |] eqn:E; [| discriminate].
      destruct (IH _ _ E) as [a [b Hab]].
      exists (String c a), b. cbn. rewrite <- Hab. reflexivity.
Qed.

Lemma index_of_split (a s b : string) :
  exists m, String.index 0 s (a ++ s ++ b) = Some m.
Proof.
  induction a as [| c a IH].
  - cbn [append]. destruct (s ++ b)%string as [| x r] eqn:E.
    + destruct s; [| discriminate]. exists 0%nat. reflexivity.
    + cbn [String.index]. rewrite <- E, prefix_append.
      exists 0%nat. reflexivity.
  - cbn [append String.index]. destruct IH as [m Hm]. rewrite Hm.
    destruct (String.prefix s (String c (a ++ s ++ b)));
      eexists; reflexivity.
Qed.

(** [occursIn] holds exactly of the strings the snippet is part of. *)
Lemma occursIn_spec (s h : string) :
  occursIn s h = true <-> exists a b, h = (a ++ s ++ b)%string.
Proof.
  unfold occursIn. split.
  - destruct (String.index 0 s h) as [m |] eqn:E; [| discriminate].
    intros _. exact (index_some_split s h 0 m E).
  - intros [a [b ->]]. destruct (index_of_split a s b) as [m Hm].
    rewrite Hm. reflexivity.
Qed.

Lemma substring_head_split (n : nat) (h : string) :
  exists rest, h = (substring 0 n h ++ rest)%string.
Proof.
  revert n. induction h as [| c h IH]; intros n.
  - exists ""%string. destruct n; reflexivity.
  - destruct n as [| n]; [exists (String c h); reflexivity |].
    destruct (IH n) as [rest Hr]. exists rest. cbn. rewrite <- Hr.
    reflexivity.
Qed.

Lemma substring_head_short (n : nat) (h : string) :
  (String.length h <= n)%nat -> substring 0 n h = h.
Proof.
  revert n. induction h as [| c h IH]; intros n Hn.
  - destruct n; reflexivity.
  - destruct n as [| n]; [cbn in Hn; lia |].
    cbn. rewrite IH by (cbn in Hn; lia). reflexivity.
Qed.

Lemma substring_head_append (pad tail : string) :
  substring 0 (String.length pad) (pad ++ tail) = pad.
Proof.
  induction pad as [| c pad IH]; [destruct tail; reflexivity |].
  cbn. rewrite IH. reflexivity.
Qed.

Section PageFacts.

Variable page : Page.
Variable setup : Setup.

(** ** The whitelist and the page heuristics *)

Lemma whitelistUrl_iff :
  whitelistUrl_ page = true <->
  exists suffix p,
    In suffix (whitelist_top_domains_ page) /\
    urlDomain page = (p ++ suffix)%string.
Proof.
  unfold whitelistUrl_. rewrite existsb_exists. split.
  - intros [suffix [Hin He]]. apply endsWith_spec in He.
    destruct He as [p Hp]. exists suffix, p. auto.
  - intros [suffix [p [Hin Hp]]]. exists suffix. split; [exact Hin |].
    apply endsWith_spec. exists p. exact Hp.
Qed.

(** X15. Edge cases of the whitelist: an empty list whitelists no
    page, an empty suffix in the list whitelists every page, and a page
    without a domain (the domain is then the empty string) is
    whitelisted only by an empty suffix. *)
Theorem whitelist_edge_cases :
  (whitelist_top_domains_ page = [] -> whitelistUrl_ page = false) /\
  (In ""%string (whitelist_top_domains_ page) -> whitelistUrl_ page = true) /\
  (urlDomain page = ""%string ->
   (whitelistUrl_ page = true <->
    In ""%string (whitelist_top_domains_ page))).
Proof.
  pose proof whitelistUrl_iff as W.
  split; [intros E; unfold whitelistUrl_; rewrite E; reflexivity |].
  split.
  - intros Hin. apply W. exists ""%string, (urlDomain page).
    split; [exact Hin | symmetry; apply append_nil_r].
  - intros Hd. split.
    + intros H. apply W in H. destruct H as [suffix [p [Hin Hp]]].
      rewrite Hd in Hp. destruct p; [| discriminate].
      cbn in Hp. subst suffix. exact Hin.
    + intros Hin. apply W. exists ""%string, ""%string.
      split; [exact Hin | rewrite Hd; reflexivity].
Qed.

(** X16. The loose check is a substring search over the whole page: it
    holds exactly when one of the snippets of [corp_html_] is part of
    the HTML of the page. *)
Theorem loose_check_is_substring_search :
  looksLikeGooglePage_ page = true <->
  exists snippet a b,
    In snippet (corp_html_ page) /\
    allHtml page = (a ++ snippet ++ b)%string.
Proof.
  unfold looksLikeGooglePage_. rewrite existsb_exists. split.
  - intros [snippet [Hin Ho]]. apply occursIn_spec in Ho.
    destruct Ho as [a [b Hab]]. exists snippet, a, b. auto.
  - intros [snippet [a [b [Hin Hab]]]]. exists snippet.
    split; [exact Hin |]. apply occursIn_spec. exists a, b. exact Hab.
Qed.

(** X17. The tight check reads the first 100000 characters only. When
    it holds, one of the tight snippets is part of the page; on a page
    of at most 100000 characters it is the substring search over the
    whole page; and on a longer page it is the search over the first
    100000 characters, so a snippet that occurs only after them is not
    found. *)
Theorem tight_check_reads_only_the_head :
  (looksLikeGooglePageTight_ page setup = true ->
   exists snippet a b,
     In snippet (corp_html_tight_ setup) /\
     allHtml page = (a ++ snippet ++ b)%string) /\
  ((String.length (allHtml page) <= tightLimit)%nat ->
   looksLikeGooglePageTight_ page setup =
   existsb (fun snippet => occursIn snippet (allHtml page))
           (corp_html_tight_ setup)) /\
  (forall head tail,
     allHtml page = (head ++ tail)%string ->
     String.length head = tightLimit ->
     looksLikeGooglePageTight_ page setup =
     existsb (fun snippet => occursIn snippet head)
             (corp_html_tight_ setup)).
Proof.
  unfold looksLikeGooglePageTight_. split; [| split].
  - intros H. apply existsb_exists in H. destruct H as [snippet [Hin Ho]].
    apply occursIn_spec in Ho. destruct Ho as [a [b Hab]].
    destruct (substring_head_split tightLimit (allHtml page)) as [rest Hr].
    exists snippet, a, (b ++ rest)%string. split; [exact Hin |].
    rewrite Hr at 1. rewrite Hab, !append_assoc. reflexivity.
  - intros Hlen. rewrite substring_head_short by exact Hlen. reflexivity.
  - intros head tail Hh Hlen. rewrite Hh, <- Hlen, substring_head_append.
    reflexivity.
Qed.

(** ** Page initialization *)

Lemma isSafeUrl_split :
  isSafeUrl page = isSsoUrl page || startsWith (url_ page) GAIA_URL_.
Proof. reflexivity. Qed.

(** X18. On the YouTube connection check page the initialization does
    nothing. On every other page it ends by installing the message
    listener, requesting the status and installing the keypress
    listener, in this order, and before that sends exactly one of the
    two messages about the possible password: the deletion on the SSO
    page and on the Google login pages other than the second factor
    page, the saving on all others. *)
Theorem initialization_outline :
  (startsWith (url_ page) YOUTUBE_CHECK_URL_ = true ->
   completePageInitialization_ page setup = []) /\
  (startsWith (url_ page) YOUTUBE_CHECK_URL_ = false ->
   exists body,
     completePageInitialization_ page setup =
       body ++ [ListenMessage; SendStatusRequest; ListenKeypress] /\
     possiblePasswordMessages body =
       [if isSsoUrl page ||
           (startsWith (url_ page) GAIA_URL_ &&
            negb (startsWith (url_ page) GAIA_SECOND_FACTOR_))
        then SendDeletePossiblePassword
        else SendSavePossiblePassword] /\
     ~ In ListenMessage body /\
     ~ In SendStatusRequest body /\
     ~ In ListenKeypress body).
Proof.
  unfold completePageInitialization_. split; intros Hy; rewrite Hy.
  - reflexivity.
  - eexists. split; [reflexivity |].
    destruct (isSsoUrl page); cbn [orb].
    + destruct (ssoFormFound setup); cbn;
        (split; [reflexivity |]); repeat split; intros H;
        repeat (destruct H as [H | H]; [discriminate |]); exact H.
    + destruct (startsWith (url_ page) GAIA_URL_); cbn [andb].
      * destruct (startsWith (url_ page) GAIA_SECOND_FACTOR_); cbn [negb];
          [| destruct (gaiaFormFound setup && emailFieldFound setup)]; cbn;
          (split; [reflexivity |]); repeat split; intros H;
          repeat (destruct H as [H | H]; [discriminate |]); exact H.
      * destruct (negb (whitelistUrl_ page) &&
                  looksLikeGooglePageTight_ page setup); cbn;
          (split; [reflexivity |]); repeat split; intros H;
          repeat (destruct H as [H | H]; [discriminate |]); exact H.
Qed.

Lemma warnsOfPhishing_eq :
  warnsOfPhishing (completePageInitialization_ page setup) =
  negb (startsWith (url_ page) YOUTUBE_CHECK_URL_) &&
  negb (isSafeUrl page) &&
  negb (whitelistUrl_ page) &&
  looksLikeGooglePageTight_ page setup.
Proof.
  rewrite isSafeUrl_split. unfold completePageInitialization_.
  destruct (startsWith (url_ page) YOUTUBE_CHECK_URL_); [reflexivity |].
  destruct (isSsoUrl page);
    [destruct (ssoFormFound setup); reflexivity |].
  destruct (startsWith (url_ page) GAIA_URL_).
  - destruct (startsWith (url_ page) GAIA_SECOND_FACTOR_);
      [| destruct (gaiaFormFound setup && emailFieldFound setup)];
      reflexivity.
  - destruct (whitelistUrl_ page);
      destruct (looksLikeGooglePageTight_ page setup); reflexivity.
Qed.

(** X19. The phishing warning (the [looksLikeGoogle] message and the
    banner) is raised exactly on a page that is not the YouTube check,
    not under a safe login URL, not whitelisted, and on which the tight
    check holds. In particular no page whose domain ends with a
    whitelisted suffix is ever warned about. *)
Theorem phishing_warning_condition :
  warnsOfPhishing (completePageInitialization_ page setup) =
    negb (startsWith (url_ page) YOUTUBE_CHECK_URL_) &&
    negb (isSafeUrl page) &&
    negb (whitelistUrl_ page) &&
    looksLikeGooglePageTight_ page setup /\
  (forall suffix p,
     In suffix (whitelist_top_domains_ page) ->
     urlDomain page = (p ++ suffix)%string ->
     warnsOfPhishing (completePageInitialization_ page setup) = false).
Proof.
  split; [exact warnsOfPhishing_eq |].
  intros suffix p Hin Hp. rewrite warnsOfPhishing_eq.
  assert (W : whitelistUrl_ page = true)
    by (apply whitelistUrl_iff; exists suffix, p; auto).
  rewrite W. cbn. rewrite andb_false_r. reflexivity.
Qed.

(** X20. A page that is warned about is also watched: when the
    initialization raises the phishing warning, every message with a
    non-empty array of watched lengths starts the monitor. *)
Theorem warned_page_is_monitored (st : State) (msg : StartMsg) :
  warnsOfPhishing (completePageInitialization_ page setup) = true ->
  passwordLengths msg <> [] ->
  isRunning_ (fst (exec (onMessage page msg) st)) = true.
Proof.
  intros Hw Hne.
  rewrite warnsOfPhishing_eq in Hw.
  apply andb_prop in Hw. destruct Hw as [Hw _].
  apply andb_prop in Hw. destruct Hw as [Hw _].
  apply andb_prop in Hw. destruct Hw as [_ Hs].
  rewrite onMessage_running, Hs.
  destruct (passwordLengths msg); [contradiction | reflexivity].
Qed.

End PageFacts.

(** ** The SSO login form *)

(** X21. Submitting the SSO form sends the possible password exactly
    when both fields are found and neither is empty; the user name is
    sent as typed when it holds an "@" and with [corp_email_domain_]
    appended otherwise. When a field that is found is empty nothing is
    sent. When a selector matches no element and the other field is
    not an empty one, the handler stops on a TypeError. *)
Theorem sso_submission_outcome (domain : string) (form : SsoForm) :
  (forall u p,
     ssoUsername form = Some u -> ssoPassword form = Some p ->
     u <> ""%string -> p <> ""%string ->
     saveSsoPassword_ domain form =
     Returned [SetPossiblePassword
                 (if occursIn "@" u then u else (u ++ domain)%string) p]) /\
  (ssoUsername form = Some ""%string \/ ssoPassword form = Some ""%string ->
   saveSsoPassword_ domain form = Returned []) /\
  (saveSsoPassword_ domain form = Thrown <->
   (ssoUsername form = None /\ ssoPassword form <> Some ""%string) \/
   (ssoPassword form = None /\ ssoUsername form <> Some ""%string)).
Proof.
  destruct form as [[u |] [p |]]; unfold saveSsoPassword_, validateSso_;
    cbn [ssoUsername ssoPassword presentAndEmpty orb].
  - destruct (String.eqb_spec u ""); destruct (String.eqb_spec p "");
      cbn [orb]; (split; [| split]).
    all: try (intros u' p' Hu Hp; injection Hu as <-; injection Hp as <-;
              intros; try contradiction; reflexivity).
    all: try (intros _; reflexivity).
    all: try (intros [H | H]; injection H as H; contradiction).
    all: split; [discriminate | intros [[H _] | [H _]]; discriminate].
  - destruct (String.eqb_spec u ""); cbn [orb]; (split; [| split]).
    all: try (intros u' p' _ Hp; discriminate).
    all: try (intros _; reflexivity).
    all: try (intros [H | H]; [injection H as H; contradiction
                               | discriminate]).
    + split; [discriminate |].
      intros [[H _] | [_ H]]; [discriminate | subst u; contradiction].
    + split; [intros _; right; split; [reflexivity | congruence]
             | reflexivity].
  - destruct (String.eqb_spec p ""); cbn [orb]; (split; [| split]).
    all: try (intros u' p' Hu _; discriminate).
    all: try (intros _; reflexivity).
    all: try (intros [H | H]; [discriminate
                               | injection H as H; contradiction]).
    + split; [discriminate |].
      intros [[_ H] | [H _]]; [subst p; contradiction | discriminate].
    + split; [intros _; left; split; [reflexivity | congruence]
             | reflexivity].
  - split; [| split].
    + intros u' p' Hu; discriminate.
    + intros [H | H]; discriminate.
    + split; [intros _; left; split; [reflexivity | discriminate]
             | reflexivity].
Qed.

(** X22. When [corp_email_domain_] holds an "@", every user name the
    SSO handler sends holds one. *)
Theorem sso_email_holds_at_sign
    (domain : string) (form : SsoForm) (email password : string) :
  occursIn "@" domain = true ->
  saveSsoPassword_ domain form =
    Returned [SetPossiblePassword email password] ->
  occursIn "@" email = true.
Proof.
  intros Hd. unfold saveSsoPassword_.
  destruct (validateSso_ form); [| discriminate].
  destruct (ssoUsername form) as [u |]; [| discriminate].
  destruct (ssoPassword form) as [p |]; [| discriminate].
  intros H. injection H as He _. subst email.
  destruct (occursIn "@" u) eqn:E; [exact E |].
  apply occursIn_spec. apply occursIn_spec in Hd.
  destruct Hd as [a [b Hab]]. exists (u ++ a)%string, b.
  rewrite Hab, append_assoc. reflexivity.
Qed.

(** * The further properties at concrete inputs *)

Lemma enter_empties_buffer_witness :
  typedChars_ typedXX123 = codes "xx123" /\
  typedChars_ (fst (step examplePage typedXX123 (press enterKey))) = [].
Proof.
  split; [reflexivity |].
  destruct (enter_empties_buffer examplePage typedXX123 (keyEvent enterKey)
              (keyOtpNow enterKey) (keyNow enterKey) eq_refl eq_refl)
    as [H _].
  exact H.
Defined.

Lemma buffer_drops_oldest_witness :
  exists dropped kept,
    typedChars_ typedXX123 = dropped ++ kept /\
    typedChars_ (fst (step examplePage typedXX123 (press key4))) =
      kept ++ fromCharCode 52.
Proof.
  apply (buffer_drops_oldest examplePage typedXX123 (keyEvent key4)
           (keyOtpNow key4) (keyNow key4)).
  - reflexivity.
  - vm_compute. discriminate.
Defined.

Lemma candidates_have_watched_lengths_witness :
  codes "1234" <> [] /\
  nth (List.length (codes "1234")) (passwordLengths_ typedXX123) false =
    true /\
  exists p,
    typedChars_ (fst (step examplePage typedXX123 (press key4))) =
      p ++ codes "1234".
Proof.
  apply (candidates_have_watched_lengths examplePage typedXX123
           (keyEvent key4) (keyOtpNow key4) (keyNow key4) (codes "1234")).
  - reflexivity.
  - vm_compute. auto.
Defined.

Lemma buffer_is_rolling_window_witness :
  typedChars_ typedZZ = codes "zz" /\
  typedChars_ (fst (run examplePage typedZZ (presses burstABC))) =
    codes "zabc".
Proof.
  split; [reflexivity |].
  apply (buffer_is_rolling_window examplePage typedZZ burstABC).
  - discriminate.
  - discriminate.
  - vm_compute. intuition discriminate.
Defined.

Lemma watched_length_burst_is_checked_witness :
  In (codes "abc")
     (candidates
        (snd (step examplePage
                (fst (run examplePage typedZZ
                        (presses [typedAt 97 1000; typedAt 98 2000])))
                (press (typedAt 99 3000))))).
Proof.
  apply (watched_length_burst_is_checked examplePage typedZZ
           [typedAt 97 1000; typedAt 98 2000] (typedAt 99 3000)).
  - vm_compute. intuition discriminate.
  - reflexivity.
Defined.

Lemma keypress_moves_count_by_at_most_one_witness :
  let r := step examplePage (started lengths46) (press (typedAt 49 1)) in
  otpMode_ (started lengths46) = false /\
  otpMode_ (fst r) = false /\
  otpCount_ (fst r) = otpCount_ (started lengths46) /\
  otpAlerts (snd r) = 0%nat.
Proof.
  cbn zeta. split; [reflexivity |].
  destruct (keypress_moves_count_by_at_most_one examplePage
              (started lengths46) (keyEvent (typedAt 49 1)) 1 1)
    as [_ [_ H]].
  apply H. reflexivity.
Defined.

Lemma alert_disarms_tracker_witness :
  let r := step examplePage typed12345 (press sixthDigit) in
  otpAlerts (snd r) = 1%nat /\
  otpMode_ (fst r) = false /\
  otp_length_ examplePage <= otpCount_ (fst r).
Proof.
  cbn zeta. split; [reflexivity |].
  destruct (alert_disarms_tracker examplePage typed12345
              (keyEvent sixthDigit) (keyOtpNow sixthDigit)
              (keyNow sixthDigit))
    as [_ [H _]].
  destruct (H eq_refl) as [_ [H1 H2]]. split; assumption.
Defined.

Lemma missing_digits_raise_one_alert_witness :
  let r := run examplePage armedAtZero (presses (fiveDigits ++ [sixthDigit])) in
  otpAlerts (snd (run examplePage armedAtZero (presses fiveDigits))) = 0%nat /\
  otpAlerts (snd r) = 1%nat /\
  otpMode_ (fst r) = false /\
  otpCount_ (fst r) = otp_length_ examplePage.
Proof.
  apply (missing_digits_raise_one_alert examplePage armedAtZero
           fiveDigits sixthDigit).
  - reflexivity.
  - vm_compute. auto 10.
  - repeat constructor; vm_compute; discriminate.
  - reflexivity.
Defined.

Lemma nonprintable_after_digit_disarms_witness :
  otpCount_ typed123 = 3 /\
  otpMode_ (fst (step examplePage typed123 (press spaceKey))) = false.
Proof.
  split; [reflexivity |].
  assert (Hc : 0 < otpCount_ typed123) by reflexivity.
  assert (Hnp : charCode (keyEvent spaceKey) <= 0x20)
    by (vm_compute; discriminate).
  destruct (nonprintable_after_digit_disarms examplePage typed123
              (keyEvent spaceKey) (keyOtpNow spaceKey) (keyNow spaceKey)
              eq_refl eq_refl eq_refl Hc Hnp)
    as [H _].
  exact H.
Defined.

Lemma armed_with_full_count_alerts_at_once_witness :
  let r := step examplePage rearmedFull (press (typedAt 97 8000)) in
  otpMode_ rearmedFull = true /\
  otpCount_ rearmedFull = 6 /\
  otpAlerts (snd r) = 1%nat /\
  otpMode_ (fst r) = false.
Proof.
  cbn zeta. split; [reflexivity |]. split; [reflexivity |].
  apply (armed_with_full_count_alerts_at_once examplePage rearmedFull
           (keyEvent (typedAt 97 8000)) 8000 8000).
  - reflexivity.
  - reflexivity.
  - vm_compute. discriminate.
Defined.

Lemma message_restarts_monitor_witness :
  let r := exec (onMessage examplePage (watch lengths5)) typedXX123 in
  isRunning_ (fst r) = true /\
  typedChars_ (fst r) = [] /\
  lastKeypressTimeStamp_ (fst r) = Some 5.
Proof.
  cbn zeta.
  destruct (message_restarts_monitor examplePage typedXX123 (watch lengths5))
    as [_ [_ [H1 [H2 [_ [H3 _]]]]]].
  split; [exact H1 |]. split; [apply H2; reflexivity | exact H3].
Defined.

Lemma message_never_disarms_witness :
  otpMode_ typed123 = true /\
  otpMode_ (fst (exec (onMessage examplePage (watch lengths46)) typed123)) =
    true /\
  otpCount_ (fst (exec (onMessage examplePage (watch lengths46)) typed123)) =
    3.
Proof.
  split; [reflexivity |].
  destruct (message_never_disarms examplePage typed123 (watch lengths46))
    as [H1 [H2 _]].
  split; [apply H2; reflexivity | exact H1].
Defined.

Lemma restart_keeps_timestamp_guard_witness :
  let st1 :=
    fst (run examplePage
           (fst (exec (handleKeypress_ examplePage
                         (keyEvent (typedAt 97 5000)) 5000 5000)
                      (started lengths46)))
           [Message (watch lengths5)]) in
  exec (handleKeypress_ examplePage (keyEvent (typedAt 98 4000)) 6000 6000)
       st1 = (st1, []).
Proof.
  apply (restart_keeps_timestamp_guard examplePage (started lengths46)
           (keyEvent (typedAt 97 5000)) 5000 5000
           [Message (watch lengths5)]
           (keyEvent (typedAt 98 4000)) 6000 6000).
  - reflexivity.
  - reflexivity.
  - vm_compute. discriminate.
Defined.

Lemma safe_page_is_never_monitored_witness :
  let r := run gaiaPage initialState
             (Message (watch lengths46) ::
              presses [typedAt 97 1; typedAt 98 2]) in
  isSafeUrl gaiaPage = true /\
  isRunning_ (fst r) = false /\
  typedChars_ (fst r) = [] /\
  candidates (snd r) = [] /\
  otpAlerts (snd r) = 0%nat.
Proof.
  cbn zeta. split; [reflexivity |].
  apply (safe_page_is_never_monitored gaiaPage). reflexivity.
Defined.

Lemma whitelist_edge_cases_witness :
  urlDomain noDomainPage = ""%string /\ whitelistUrl_ noDomainPage = true.
Proof.
  split; [reflexivity |].
  destruct (whitelist_edge_cases noDomainPage) as [_ [H _]].
  apply H. right. left. reflexivity.
Defined.

Lemma loose_check_is_substring_search_witness :
  looksLikeGooglePage_ lookalikePage = true.
Proof.
  apply loose_check_is_substring_search.
  exists "<title>Sign in - Google Accounts"%string,
         "<html>"%string, "</title></html>"%string.
  split; [left; reflexivity | reflexivity].
Defined.

Lemma tight_check_reads_only_the_head_witness :
  exists snippet a b,
    In snippet (corp_html_tight_ lookalikeSetup) /\
    allHtml lookalikePage = (a ++ snippet ++ b)%string.
Proof.
  destruct (tight_check_reads_only_the_head lookalikePage lookalikeSetup)
    as [H _].
  apply H. vm_compute. reflexivity.
Defined.

Lemma initialization_outline_witness :
  exists body,
    completePageInitialization_ lookalikePage lookalikeSetup =
      body ++ [ListenMessage; SendStatusRequest; ListenKeypress] /\
    possiblePasswordMessages body = [SendSavePossiblePassword].
Proof.
  destruct (initialization_outline lookalikePage lookalikeSetup) as [_ H].
  destruct (H eq_refl) as [body [H1 [H2 _]]].
  exists body. split; [exact H1 | exact H2].
Defined.

Lemma phishing_warning_condition_witness :
  warnsOfPhishing (completePageInitialization_ lookalikePage lookalikeSetup) =
    true /\
  warnsOfPhishing (completePageInitialization_ subdomainPage lookalikeSetup) =
    false.
Proof.
  split; [reflexivity |].
  destruct (phishing_warning_condition subdomainPage lookalikeSetup)
    as [_ H].
  apply (H "accounts.google.com"%string "login."%string);
    [left; reflexivity | reflexivity].
Defined.

Lemma warned_page_is_monitored_witness :
  isRunning_
    (fst (exec (onMessage lookalikePage (watch lengths46)) initialState)) =
  true.
Proof.
  apply (warned_page_is_monitored lookalikePage lookalikeSetup).
  - vm_compute. reflexivity.
  - discriminate.
Defined.

Lemma sso_submission_outcome_witness :
  saveSsoPassword_ "@corp.example" filledForm =
    Returned [SetPossiblePassword "alice@corp.example" "hunter2"] /\
  saveSsoPassword_ "@corp.example" noUsernameForm = Thrown.
Proof.
  split.
  - destruct (sso_submission_outcome "@corp.example" filledForm) as [H _].
    apply (H "alice"%string "hunter2"%string);
      try reflexivity; discriminate.
  - destruct (sso_submission_outcome "@corp.example" noUsernameForm)
      as [_ [_ H]].
    apply H. left. split; [reflexivity | discriminate].
Defined.

Lemma sso_email_holds_at_sign_witness :
  occursIn "@" "alice@corp.example" = true.
Proof.
  apply (sso_email_holds_at_sign "@corp.example" filledForm
           "alice@corp.example" "hunter2");
    reflexivity.
Defined.

Lemma response_after_stop_still_arms_witness :
  let s2 := fst (step examplePage (fst (exec stop_ typedXX123))
                   (Response true 7000)) in
  let s3 := fst (step examplePage s2 (Message (watch lengths46))) in
  isRunning_ s2 = false /\
  otpMode_ s2 = true /\
  otpCount_ (fst (step examplePage s3 (press (typedAt 49 8000)))) = 1.
Proof.
  cbn zeta.
  destruct (response_after_stop_still_arms examplePage typedXX123 7000
              (watch lengths46) (typedAt 49 8000))
    as [[H1 [H2 _]] H].
  split; [exact H1 |]. split; [exact H2 |].
  assert (Hd : digitKey (Some 7000) (typedAt 49 8000))
    by (split; [vm_compute; split; discriminate | reflexivity]).
  assert (Hne : passwordLengths (watch lengths46) <> []) by discriminate.
  assert (Hlen : 1 < otp_length_ examplePage) by reflexivity.
  destruct (H eq_refl Hne eq_refl eq_refl Hd Hlen) as [_ [_ H3]].
  exact H3.
Defined.
